(** * haklander: the DXF chat editor (app/main.py)

    A shallow embedding of the HTTP handlers of [app/main.py] and of the
    string surgery they perform on the reply of the hosted model.

    The CAD library (ezdxf), the hosted model, the Python interpreter behind
    [exec] and the PDF tool chain are not part of the repository: they are
    taken as an interface, the class [External] below.  Everything the
    repository itself does - the filename gate, the single global document
    handle, the splitting of the model reply, the wrapping of exceptions,
    the entity-count report - is written out as Rocq functions. *)

From Stdlib Require Import ZArith QArith Ascii String DecimalString.
From stdpp Require Import base option list strings gmap.

Local Open Scope string_scope.

(** ** Python strings

    A [str] is modelled as a Rocq [string]; its characters stand for the
    code points below 256.  Every marker the program looks for is ASCII. *)

Module Py.

Definition len (s : string) : nat := String.length s.

(** [s[n:]] *)
Fixpoint drop (n : nat) (s : string) : string :=
  match n, s with
  | O, _ => s
  | S n', String _ s' => drop n' s'
  | S _, EmptyString => EmptyString
  end.

(** [s[:n]] *)
Fixpoint take (n : nat) (s : string) : string :=
  match n, s with
  | O, _ => EmptyString
  | S n', String c s' => String c (take n' s')
  | S _, EmptyString => EmptyString
  end.

(** [s.startswith(p)] *)
Definition startswith (p s : string) : bool := String.prefix p s.

(** [s.find(sub)]: the least index at which [sub] occurs, [None] for
    Python's [-1]. *)
Fixpoint find (sub s : string) : option nat :=
  if startswith sub s then Some O
  else match s with
       | EmptyString => None
       | String _ s' => option_map S (find sub s')
       end.

(** [sub in s] *)
Definition contains (sub s : string) : bool :=
  match find sub s with Some _ => true | None => false end.

(** [s.split(sep)] for a non-empty [sep]: cut at the first occurrence,
    go on behind it.  The first argument bounds the number of cuts; the
    length of [s] is enough ([split_fuel_enough]).  Python raises
    [ValueError] on an empty separator; the program only splits on
    constant, non-empty markers. *)
Fixpoint split_fuel (fuel : nat) (sep s : string) : list string :=
  match find sep s with
  | None => [s]
  | Some i =>
      match fuel with
      | O => [s]
      | S fuel' => take i s :: split_fuel fuel' sep (drop (i + len sep) s)
      end
  end.

Definition split (sep s : string) : list string :=
  split_fuel (len s) sep s.

(** [sep.join(parts)] *)
Definition join (sep : string) (parts : list string) : string :=
  String.concat sep parts.

(** [s.replace(old, new)] for a non-empty [old]: every occurrence, left
    to right, without overlap. *)
Definition replace (old new s : string) : string :=
  join new (split old s).

(** [c.isspace()] for the code points below 256: TAB, LF, VT, FF, CR,
    FS, GS, RS, US, SPACE, NEL and NBSP. *)
Definition isspace (c : ascii) : bool :=
  let n := nat_of_ascii c in
  (((9 <=? n) && (n <=? 13)) || ((28 <=? n) && (n <=? 32))
   || (n =? 133) || (n =? 160))%nat.

Fixpoint lstrip (s : string) : string :=
  match s with
  | EmptyString => EmptyString
  | String c s' => if isspace c then lstrip s' else s
  end.

Fixpoint rstrip (s : string) : string :=
  match s with
  | EmptyString => EmptyString
  | String c s' =>
      match rstrip s' with
      | EmptyString => if isspace c then EmptyString else String c EmptyString
      | r => String c r
      end
  end.

(** [s.strip()] *)
Definition strip (s : string) : string := lstrip (rstrip s).

(** [c.lower()] for the code points below 256: A-Z and the Latin-1
    capitals (all of 192..222 but the multiplication sign 215). *)
Definition lower_char (c : ascii) : ascii :=
  let n := nat_of_ascii c in
  if (((65 <=? n) && (n <=? 90))
      || ((192 <=? n) && (n <=? 222) && negb (n =? 215)))%nat
  then ascii_of_nat (n + 32) else c.

Fixpoint lower (s : string) : string :=
  match s with
  | EmptyString => EmptyString
  | String c s' => String (lower_char c) (lower s')
  end.

(** [s.endswith(suffix)] *)
Definition endswith (suffix s : string) : bool :=
  (len suffix <=? len s)%nat && String.eqb (drop (len s - len suffix) s) suffix.

(** [str(n)] for an [int] *)
Definition str_int (n : Z) : string :=
  NilEmpty.string_of_int (Z.to_int n).

(** the truth value of a [str] *)
Definition truthy (s : string) : bool :=
  match s with EmptyString => false | _ => true end.

End Py.


(** The double quote, for the program's string constants that hold one. *)
Definition dq : string := String (ascii_of_nat 34) EmptyString.

(** ** Exceptions *)

(** The classes derived from [Exception], as far as the handlers tell them
    apart: [except RuntimeError] and [except Exception]. *)
Inductive Error : Type :=
  | HTTPException (status_code : Z) (detail : string)
  | RuntimeError (msg : string)
  | OtherError (cls msg : string).

(** Whatever a [raise] can carry: an [Exception] of the kinds above, whose
    [str] is its message; one of the classes directly under [BaseException]
    ([SystemExit], [KeyboardInterrupt], [GeneratorExit]), which no
    [except Exception] clause matches; or an [Exception] of a class of the
    executed code's own whose [__str__] raises [thrown] when [str] is
    applied to it. *)
Inductive Raised : Type :=
  | Exc (e : Error)
  | Exit (cls msg : string)
  | Unprintable (cls : string) (thrown : Raised).

(** [str(e)] *)
Definition str_error (e : Error) : string :=
  match e with
  | HTTPException status detail => Py.str_int status +:+ ": " +:+ detail
  | RuntimeError msg => msg
  | OtherError _ msg => msg
  end.

(** What a call into a library gives back: a value, or an exception
    derived from [Exception] (ezdxf, the model client, svglib and reportlab
    signal failure in no other way). *)
Inductive Answer (A : Type) : Type :=
  | Ok (a : A)
  | Failed (e : Error).
Arguments Ok {A} a.
Arguments Failed {A} e.

(** What running a statement gives: a value or a raised exception. *)
Inductive Result (A : Type) : Type :=
  | Return (a : A)
  | Throw (e : Raised).
Arguments Return {A} a.
Arguments Throw {A} e.

(** [str(e)] for whatever was raised: the text, or what [__str__]
    raises. *)
Definition str_raised (r : Raised) : Result string :=
  match r with
  | Exc e => Return (str_error e)
  | Exit _ msg => Return msg
  | Unprintable _ thrown => Throw thrown
  end.

(** [isinstance(e, Exception)] *)
Definition is_Exception (r : Raised) : bool :=
  match r with
  | Exc _ => true
  | Exit _ _ => false
  | Unprintable _ _ => true
  end.

(** What [exec] did: ran to the end, or raised [e]; [traceback] is the
    text that [traceback.format_exc()] prints for [e].  Code that never
    ends has no outcome and is not described. *)
Inductive ExecOutcome : Type :=
  | Completed
  | Raising (e : Raised) (traceback : string).

(** ** Data of the handlers *)

Record ChatRequest : Type := { message : string }.

Record ChatResponse : Type := {
  response : string;
  code : string;
  executed : bool;
  result : string;
  svg_updated : bool
}.

(** One entry of [get_layers_info]. *)
Record LayerInfo : Type := {
  name : string;
  color : Z;
  entity_count : nat
}.

(** [UploadFile]: the client's file name and the bytes behind it. *)
Record UploadFile : Type := {
  filename : string;
  content : string
}.

Inductive BackgroundPolicy : Type := OFF | WHITE.
Inductive ColorPolicy : Type := BLACK | COLOR.

Record Configuration : Type := {
  background_policy : BackgroundPolicy;
  color_policy : ColorPolicy;
  lineweight_scaling : Q
}.

Record Page : Type := { width : Z; height : Z }.

(** The bodies the handlers answer with. *)
Inductive Payload : Type :=
  | HTMLResponse (html : string) (status_code : Z)
  | UploadResult (success : bool) (file_name svg : string) (layers : list LayerInfo)
  | Response (body media_type : string)
  | LayersResult (layers : list LayerInfo)
  | ChatResult (r : ChatResponse)
  | FileResponse (path file_name media_type : string).

(** What the server did to the outside, in order. *)
Inductive Event : Type :=
  | EvReadUpload (file_name : string)
  | EvWriteFile (path : string)
  | EvLoad (path : string)
  | EvRender (doc_id : nat)
  | EvModel (system user : string)
  | EvExec (source : string) (globals : list string) (doc_id : nat).

(** ** The world outside the repository *)

(** A drawing object: [doc_id] is its identity (Python's [id]), [doc]
    its present content.  Code that mutates the drawing in place changes
    [doc] and keeps [doc_id]; [ezdxf.readfile] makes an object with an
    identity never used before. *)
Record DocObjectOf (D : Type) : Type := {
  doc_id : nat;
  doc : D
}.
Arguments doc_id {D} _.
Arguments doc {D} _.

(** What code run by [exec] can lay hands on besides the object it is
    given: it has the builtins, so it can import the module and assign its
    globals [current_doc], [current_filename] and [temp_dir], and it can
    write and remove files.  The globals keep values of their types.  Code
    that replaces functions of the module or of the libraries is not
    described: the handlers and the libraries stay what they are. *)
Record Reach (D : Type) : Type := {
  r_current_doc : option (DocObjectOf D);
  r_filename : string;
  r_temp_dir : string;
  r_files : gmap string string
}.
Arguments r_current_doc {D} _.
Arguments r_filename {D} _.
Arguments r_temp_dir {D} _.
Arguments r_files {D} _.

(** What a snippet leaves behind: the content of the object that [doc] was
    bound to, the globals and the files as they are afterwards, and how the
    execution ended. *)
Record Left (D : Type) : Type := {
  left_doc : D;
  left_reach : Reach D;
  outcome : ExecOutcome
}.
Arguments left_doc {D} _.
Arguments left_reach {D} _.
Arguments outcome {D} _.

Class External : Type := {
  (** [ezdxf.document.Drawing], a modelspace entity, a reportlab drawing *)
  Drawing : Type;
  Entity : Type;
  RLDrawing : Type;
  (** [ezdxf.readfile], on the bytes of the file *)
  readfile : string -> Answer Drawing;
  (** [doc.layers]: name ([layer.dxf.name]) and [layer.color] of each *)
  layer_table : Drawing -> list (string * Z);
  (** [list(doc.modelspace())] *)
  modelspace : Drawing -> list Entity;
  (** [list(doc.modelspace().query(q))] *)
  query : string -> Drawing -> Answer (list Entity);
  (** [Frontend(RenderContext(doc), backend, config).draw_layout(msp)]
      followed by [backend.get_string(page)] *)
  render : Configuration -> Page -> Drawing -> Answer string;
  (** [doc.saveas]: the bytes written *)
  saveas : Drawing -> Answer string;
  (** [client.messages.create(...).content[0].text] for a system prompt
      and a user message *)
  model_reply : string -> string -> Answer string;
  (** [exec(code, globals, {})] with the given names bound in [globals],
      [doc] bound to the given object, run where the globals and the files
      are as given: what the code leaves behind.  The code has the builtins
      and can import the module itself. *)
  py_exec : string -> list string -> DocObjectOf Drawing -> Reach Drawing -> Left Drawing;
  (** [Path(path).write_bytes(data)] for a path made from a name of the
      client, with the files as they are: the operating system takes the
      file, or raises (a directory of the path is missing, the name is too
      long, ...) and leaves the files as they were *)
  write_bytes : gmap string string -> string -> string -> Answer unit;
  (** [svg2rlg] on the text of an SVG file, [renderPDF.drawToFile] *)
  svg2rlg : string -> Answer (option RLDrawing);
  drawToFile : RLDrawing -> Answer string;
  (** [static/index.html] next to the module, when it exists *)
  index_html : option string
}.

Section Server.
Context `{Ext : External}.

Definition DocObject : Type := DocObjectOf Drawing.

(** The module globals [current_doc], [current_filename], [temp_dir],
    and the part of the outside the handlers touch: the files written,
    the next free object identity, the log of effects. *)
Record World : Type := {
  current_doc : option DocObject;
  current_filename : string;
  temp_dir : string;
  files : gmap string string;
  next_id : nat;
  log : list Event
}.

(** The world when the module has been loaded: nothing is read back. *)
Definition startup (tmp : string) (disk : gmap string string) : World :=
  {| current_doc := None; current_filename := EmptyString;
     temp_dir := tmp; files := disk; next_id := O; log := [] |}.

Definition set_current_doc (o : DocObject) (w : World) : World :=
  {| current_doc := Some o; current_filename := current_filename w;
     temp_dir := temp_dir w; files := files w;
     next_id := next_id w; log := log w |}.

Definition set_current_filename (s : string) (w : World) : World :=
  {| current_doc := current_doc w; current_filename := s;
     temp_dir := temp_dir w; files := files w;
     next_id := next_id w; log := log w |}.

Definition set_files (fs : gmap string string) (w : World) : World :=
  {| current_doc := current_doc w; current_filename := current_filename w;
     temp_dir := temp_dir w; files := fs;
     next_id := next_id w; log := log w |}.

Definition set_next_id (n : nat) (w : World) : World :=
  {| current_doc := current_doc w; current_filename := current_filename w;
     temp_dir := temp_dir w; files := files w;
     next_id := n; log := log w |}.

Definition add_event (e : Event) (w : World) : World :=
  {| current_doc := current_doc w; current_filename := current_filename w;
     temp_dir := temp_dir w; files := files w;
     next_id := next_id w; log := log w ++ [e] |}.

(** What executed code finds when it looks around. *)
Definition reach (w : World) : Reach Drawing :=
  {| r_current_doc := current_doc w; r_filename := current_filename w;
     r_temp_dir := temp_dir w; r_files := files w |}.

(** Statements: they read and change the world, and return or raise. *)
Definition M (A : Type) : Type := World -> Result A * World.

Definition ret {A} (a : A) : M A := fun w => (Return a, w).

Definition raise {A} (e : Raised) : M A := fun w => (Throw e, w).

Definition bind {A B} (m : M A) (k : A -> M B) : M B :=
  fun w =>
    match m w with
    | (Return a, w') => k a w'
    | (Throw e, w') => (Throw e, w')
    end.

(** [try: m  except ...: h e], then carry on with [k]: only [m] is
    guarded. *)
Definition try_except {A B} (m : M A) (h : Raised -> M B) (k : A -> M B) : M B :=
  fun w =>
    match m w with
    | (Return a, w') => k a w'
    | (Throw e, w') => h e w'
    end.

Definition gets {A} (f : World -> A) : M A := fun w => (Return (f w), w).

Definition modify (f : World -> World) : M unit := fun w => (Return tt, f w).

(** A library call: its failure is raised. *)
Definition call {A} (r : Answer A) : M A :=
  match r with
  | Ok a => ret a
  | Failed e => raise (Exc e)
  end.

End Server.

Declare Scope py_scope.
Delimit Scope py_scope with py.
Notation "x <- m ;; k" := (bind m (fun x => k))
  (at level 100, m at next level, right associativity) : py_scope.
Notation "m ;; k" := (bind m (fun _ => k))
  (at level 100, right associativity) : py_scope.

(** [l[i]]: Python raises [IndexError] out of range. *)
Definition item (l : list string) (i : nat) : Answer string :=
  match l !! i with
  | Some x => Ok x
  | None => Failed (OtherError "IndexError" "list index out of range")
  end.

Definition and_then {A B} (r : Answer A) (k : A -> Answer B) : Answer B :=
  match r with
  | Ok a => k a
  | Failed e => Failed e
  end.

Definition nl : string := String (ascii_of_nat 10) EmptyString.

(** ** generate_ezdxf_code: the prompt and the parsing of the reply *)

Module Prompt.

Definition prompt_head : string :=
  "You are an expert at writing ezdxf Python code to modify DXF files.

The current DXF document has these layers:
".

Definition prompt_tail_pieces : list string :=
  ["

The user will describe changes they want to make. Generate Python code that:
1. Uses the variable `doc` which is already loaded as an ezdxf document
2. Uses `msp = doc.modelspace()` to access entities
3. Makes the requested modifications
4. Does NOT save the file (that's handled separately)

Common ezdxf patterns:
- Query entities: `msp.query('*[layer==";
   "LAYERNAME";
   "]')` or `msp.query('LINE')`, `msp.query('TEXT')`
- Delete entity: `msp.delete_entity(entity)`
- Change text: `entity.dxf.text = ";
   "new text";
   "` for TEXT entities
- Change layer: `entity.dxf.layer = ";
   "NEW_LAYER";
   "`
- Add line: `msp.add_line((x1,y1), (x2,y2), dxfattribs={";
   "layer";
   ": ";
   "LAYER";
   "})`
- Add text: `msp.add_text(";
   "text";
   ", dxfattribs={";
   "layer";
   ": ";
   "LAYER";
   ", ";
   "height";
   ": 2.5}).set_placement((x, y))`

Respond with:
1. A brief explanation of what you'll do (1-2 sentences)
2. The Python code block

Format your response as:
EXPLANATION: <your explanation>
CODE:
```python
<your code>
```"].

Definition prompt_tail : string := Py.join dq prompt_tail_pieces.

(** One line of [layers_desc]. *)
Definition layer_line (l : LayerInfo) : string :=
  "- " +:+ name l +:+ ": " +:+ Py.str_int (Z.of_nat (entity_count l)) +:+ " entities".

Definition layers_desc (layers_info : list LayerInfo) : string :=
  Py.join nl (map layer_line layers_info).

Definition system_prompt (layers_info : list LayerInfo) : string :=
  prompt_head +:+ layers_desc layers_info +:+ prompt_tail.

End Prompt.

(** [part.split(fence)[1].split("```")[0].strip()] *)
Definition fenced (fence part : string) : Answer string :=
  and_then (item (Py.split fence part) 1) (fun behind =>
  and_then (item (Py.split "```" behind) 0) (fun block =>
  Ok (Py.strip block))).

(** The code in [text], as both branches of the parser look for it: a
    python fence first, any fence second. *)
Definition extract_code (otherwise : string) (text : string) : Answer string :=
  if Py.contains "```python" text then fenced "```python" text
  else if Py.contains "```" text then fenced "```" text
  else Ok otherwise.

(** Lines 134-157: explanation and code out of the model's text. *)
Definition parse_response (text : string) : Answer (string * string) :=
  if Py.contains "EXPLANATION:" text then
    let parts := Py.split "CODE:" text in
    and_then (item parts 0) (fun head =>
    let explanation := Py.strip (Py.replace "EXPLANATION:" EmptyString head) in
    if (1 <? length parts)%nat then
      and_then (item parts 1) (fun code_part =>
      and_then (extract_code (Py.strip code_part) code_part) (fun code =>
      Ok (explanation, code)))
    else Ok (explanation, EmptyString))
  else
    let explanation := "Executing requested changes." in
    and_then (extract_code EmptyString text) (fun code =>
    Ok (explanation, code)).

(** The result message of [execute_ezdxf_code] for the two counts. *)
Definition count_message (count_before count_after : nat) : string :=
  let diff := (Z.of_nat count_after - Z.of_nat count_before)%Z in
  if (diff <? 0)%Z then Py.str_int (Z.abs diff) +:+ " element(s) removed"
  else if (0 <? diff)%Z then Py.str_int diff +:+ " element(s) added"
  else "Changes applied successfully".

Section Handlers.
Context `{Ext : External}.
Local Open Scope py_scope.

(** [pathlib] on POSIX.  The root of a path: two leading slashes are kept
    as they are, one or three and more are one slash. *)
Definition path_root (s : string) : string :=
  if Py.startswith "//" s && negb (Py.startswith "///" s) then "//"
  else if Py.startswith "/" s then "/"
  else EmptyString.

(** The parts of a path: empty parts and "." are dropped, ".." stays. *)
Definition path_parts (s : string) : list string :=
  filter (fun part => negb (String.eqb part EmptyString) && negb (String.eqb part "."))
         (Py.split "/" s).

(** [str] of the path with this root and these parts. *)
Definition path_str (root : string) (parts : list string) : string :=
  match root, parts with
  | EmptyString, [] => "."
  | _, _ => root +:+ Py.join "/" parts
  end.

(** [str(Path(dir) / file)]: an absolute [file] stands for itself. *)
Definition joinpath (dir file : string) : string :=
  if Py.startswith "/" file
  then path_str (path_root file) (path_parts file)
  else path_str (path_root dir) (path_parts dir ++ path_parts file).

(** What a write that succeeded does to the files.  For [doc.saveas] and
    [renderPDF.drawToFile] the success is the answer of the library;
    [svg_path.write_text] at main.py:353 writes the program's own
    "temp.svg" into [temp_dir] and is taken to succeed. *)
Definition write_file (path data : string) : M unit :=
  modify (add_event (EvWriteFile path)) ;;
  modify (fun w => set_files (<[path := data]> (files w)) w).

(** [temp_path.write_bytes(content)] at main.py:213: the path comes from
    the name the client gave, and the write can raise. *)
Definition write_upload (path data : string) : M unit :=
  fs <- gets files ;;
  call (write_bytes fs path data) ;;
  write_file path data.

(** [ezdxf.readfile(path)]: a new drawing object. *)
Definition ezdxf_readfile (path : string) : M DocObject :=
  modify (add_event (EvLoad path)) ;;
  fs <- gets files ;;
  match fs !! path with
  | None => raise (Exc (OtherError "FileNotFoundError" path))
  | Some data =>
      d <- call (readfile data) ;;
      n <- gets next_id ;;
      modify (set_next_id (S n)) ;;
      ret {| doc_id := n; doc := d |}
  end.

(** The configuration of the preview: no background, black lines,
    line weights scaled by 1.5. *)
Definition svg_config : Configuration :=
  {| background_policy := OFF; color_policy := BLACK; lineweight_scaling := 3 # 2 |}.

(** The configuration of the PDF export: white background, the colours of
    the drawing, line weights scaled by 2.0. *)
Definition pdf_config : Configuration :=
  {| background_policy := WHITE; color_policy := COLOR; lineweight_scaling := 2 # 1 |}.

(** [layout.Page(0, 0)]: sized to the content. *)
Definition auto_page : Page := {| width := 0; height := 0 |}.

Definition dxf_to_svg (o : DocObject) : M string :=
  let config := svg_config in
  modify (add_event (EvRender (doc_id o))) ;;
  let page := auto_page in
  call (render config page (doc o)).

Fixpoint layers_info_of (d : Drawing) (table : list (string * Z)) : Answer (list LayerInfo) :=
  match table with
  | [] => Ok []
  | (layer_name, layer_color) :: rest =>
      and_then (query ("*[layer==" +:+ dq +:+ layer_name +:+ dq +:+ "]") d) (fun found =>
      and_then (layers_info_of d rest) (fun layers =>
      Ok ({| name := layer_name; color := layer_color;
             entity_count := length found |} :: layers)))
  end.

Definition get_layers_info (o : DocObject) : M (list LayerInfo) :=
  call (layers_info_of (doc o) (layer_table (doc o))).

Definition generate_ezdxf_code (user_message : string) (layers_info : list LayerInfo)
    : M (string * string) :=
  let system_prompt := Prompt.system_prompt layers_info in
  modify (add_event (EvModel system_prompt user_message)) ;;
  text <- call (model_reply system_prompt user_message) ;;
  call (parse_response text).

Definition exec_globals : list string := ["doc"; "ezdxf"].

(** [exec(code, exec_globals, exec_locals)] on the object [o]: the world
    afterwards.  The globals and the files are what the code left.  When
    [current_doc] still is the object the code was given, it shows the
    content the code left in it; the identities given out later stay above
    the one in [current_doc]. *)
Definition after_exec (code : string) (o : DocObject) (w : World) : World :=
  let ran := py_exec code exec_globals o (reach w) in
  let found := r_current_doc (left_reach ran) in
  {| current_doc :=
       match found with
       | Some cur =>
           if (doc_id cur =? doc_id o)%nat
           then Some {| doc_id := doc_id o; doc := left_doc ran |}
           else Some cur
       | None => None
       end;
     current_filename := r_filename (left_reach ran);
     temp_dir := r_temp_dir (left_reach ran);
     files := r_files (left_reach ran);
     next_id := match found with
                | Some cur => Nat.max (next_id w) (S (doc_id cur))
                | None => next_id w
                end;
     log := log w ++ [EvExec code exec_globals (doc_id o)] |}.

Definition run_exec (code : string) (o : DocObject) : M (Left Drawing) :=
  fun w => (Return (py_exec code exec_globals o (reach w)), after_exec code o w).

Definition execute_ezdxf_code (code : string) (o : DocObject) : M string :=
  let count_before := length (modelspace (doc o)) in
  ran <- run_exec code o ;;
  match outcome ran with
  | Completed =>
      let count_after := length (modelspace (left_doc ran)) in
      ret (count_message count_before count_after)
  | Raising e traceback =>
      if is_Exception e
      then match str_raised e with
           | Return text =>
               raise (Exc (RuntimeError
                 ("Code execution failed: " +:+ text +:+ nl +:+ traceback)))
           | Throw inner => raise inner
           end
      else raise e
  end.

(** [GET /] *)
Definition serve_frontend : M Payload :=
  match index_html with
  | Some html => ret (HTMLResponse html 200)
  | None => ret (HTMLResponse "<h1>Frontend not found</h1>" 404)
  end.

(** [POST /api/upload] up to [await file.read()] ... *)
Definition upload_begin (file : UploadFile) : M string :=
  if negb (Py.endswith ".dxf" (Py.lower (filename file)))
  then raise (Exc (HTTPException 400 "File must be a DXF file"))
  else modify (add_event (EvReadUpload (filename file))) ;;
       ret (content file).

(** ... and from there on. *)
Definition upload_finish (file : UploadFile) (data : string) : M Payload :=
  tmp <- gets temp_dir ;;
  let temp_path := joinpath tmp (filename file) in
  write_upload temp_path data ;;
  try_except
    (o <- ezdxf_readfile temp_path ;;
     modify (set_current_doc o) ;;
     modify (set_current_filename (filename file)) ;;
     svg_content <- dxf_to_svg o ;;
     layers <- get_layers_info o ;;
     ret (UploadResult true (filename file) svg_content layers))
    (fun e =>
       match e with
       | Exc e' => raise (Exc (HTTPException 500
                     ("Failed to process DXF: " +:+ str_error e')))
       | Exit _ _ => raise e
       | Unprintable _ thrown => raise thrown
       end)
    ret.

Definition upload_dxf (file : UploadFile) : M Payload :=
  data <- upload_begin file ;;
  upload_finish file data.

(** [GET /api/svg] *)
Definition get_svg : M Payload :=
  cur <- gets current_doc ;;
  match cur with
  | None => raise (Exc (HTTPException 404 "No DXF file loaded"))
  | Some o =>
      svg_content <- dxf_to_svg o ;;
      ret (Response svg_content "image/svg+xml")
  end.

(** [GET /api/layers] *)
Definition get_layers : M Payload :=
  cur <- gets current_doc ;;
  match cur with
  | None => raise (Exc (HTTPException 404 "No DXF file loaded"))
  | Some o =>
      layers <- get_layers_info o ;;
      ret (LayersResult layers)
  end.

(** The two [except] clauses of [chat]; [bound] is the local [code] when
    the assignment to it has run.  Both clauses begin with [str(e)]: what
    that raises leaves the handler. *)
Definition chat_except (bound : option string) (e : Raised) : M Payload :=
  match e with
  | Exc (RuntimeError msg) =>
      ret (ChatResult {| response := "Error executing code: " +:+ msg;
                         code := default EmptyString bound;
                         executed := false;
                         result := msg;
                         svg_updated := false |})
  | Exc e' => raise (Exc (HTTPException 500
                ("Chat processing failed: " +:+ str_error e')))
  | Exit _ _ => raise e
  | Unprintable _ thrown => raise thrown
  end.

(** [POST /api/chat] *)
Definition chat (request : ChatRequest) : M Payload :=
  cur <- gets current_doc ;;
  match cur with
  | None => raise (Exc (HTTPException 400
              "No DXF file loaded. Please upload a file first."))
  | Some o =>
      try_except
        (layers <- get_layers_info o ;;
         generate_ezdxf_code (message request) layers)
        (chat_except None)
        (fun generated =>
           let explanation := fst generated in
           let code := snd generated in
           try_except
             (if negb (Py.truthy code)
              then ret (ChatResult
                     {| response :=
                          if Py.truthy explanation then explanation
                          else "I couldn't generate code for that request. Please try rephrasing.";
                        code := EmptyString;
                        executed := false;
                        result := EmptyString;
                        svg_updated := false |})
              else
                result <- execute_ezdxf_code code o ;;
                ret (ChatResult
                       {| response := explanation;
                          code := code;
                          executed := true;
                          result := result;
                          svg_updated := true |}))
             (chat_except (Some code))
             ret)
  end.

(** [GET /api/export/dxf] *)
Definition export_dxf : M Payload :=
  cur <- gets current_doc ;;
  match cur with
  | None => raise (Exc (HTTPException 404 "No DXF file loaded"))
  | Some o =>
      file_name <- gets current_filename ;;
      tmp <- gets temp_dir ;;
      let export_name := Py.replace ".dxf" "_edited.dxf" file_name in
      let export_path := joinpath tmp export_name in
      data <- call (saveas (doc o)) ;;
      write_file export_path data ;;
      ret (FileResponse export_path export_name "application/dxf")
  end.

(** [GET /api/export/pdf] *)
Definition export_pdf : M Payload :=
  cur <- gets current_doc ;;
  match cur with
  | None => raise (Exc (HTTPException 404 "No DXF file loaded"))
  | Some o =>
      let config := pdf_config in
      modify (add_event (EvRender (doc_id o))) ;;
      svg_string <- call (render config auto_page (doc o)) ;;
      tmp <- gets temp_dir ;;
      let svg_path := joinpath tmp "temp.svg" in
      write_file svg_path svg_string ;;
      drawing <- call (svg2rlg svg_string) ;;
      match drawing with
      | None => raise (Exc (HTTPException 500 "Failed to parse SVG for PDF export"))
      | Some drawing =>
          file_name <- gets current_filename ;;
          let export_name := Py.replace ".dxf" ".pdf" file_name in
          let export_path := joinpath tmp export_name in
          data <- call (drawToFile drawing) ;;
          write_file export_path data ;;
          ret (FileResponse export_path export_name "application/pdf")
      end
  end.

End Handlers.

(** ** The server as a whole *)

Section Service.
Context `{Ext : External}.
Local Open Scope py_scope.

(** The routes of the application. *)
Inductive Request : Type :=
  | GetFrontend
  | PostUpload (file : UploadFile)
  | GetSvg
  | GetLayers
  | PostChat (request : ChatRequest)
  | GetExportDxf
  | GetExportPdf.

Definition handle (req : Request) : M Payload :=
  match req with
  | GetFrontend => serve_frontend
  | PostUpload file => upload_dxf file
  | GetSvg => get_svg
  | GetLayers => get_layers
  | PostChat request => chat request
  | GetExportDxf => export_dxf
  | GetExportPdf => export_pdf
  end.

(** The status line the framework sends for what a handler did: the
    status of an [HTTPException], 500 for any other [Exception] that
    escapes, none when the exception is not an [Exception]. *)
Definition http_status (r : Result Payload) : option Z :=
  match r with
  | Return (HTMLResponse _ status) => Some status
  | Return _ => Some 200%Z
  | Throw (Exc (HTTPException status _)) => Some status
  | Throw (Exc _) => Some 500%Z
  | Throw (Exit _ _) => None
  | Throw (Unprintable _ _) => Some 500%Z
  end.

(** The handlers are coroutines on one event loop: a handler runs without
    interruption from one [await] to the next.  [upload_dxf] has one
    [await], [file.read()]; no other handler has any.  The steps of the
    loop are therefore a whole request, or one of the two halves of an
    upload. *)
Inductive Step : Type :=
  | Serve (req : Request)
  | UploadBegin (file : UploadFile)
  | UploadFinish (file : UploadFile).

(** The second half of an upload runs only when the first has let the
    file pass. *)
Definition step (s : Step) (w : World) : World :=
  match s with
  | Serve req => snd (handle req w)
  | UploadBegin file => snd (upload_begin file w)
  | UploadFinish file =>
      match fst (upload_begin file w) with
      | Return data => snd (upload_finish file data w)
      | Throw _ => w
      end
  end.

Definition run (steps : list Step) (w : World) : World :=
  fold_left (fun w s => step s w) steps w.

(** The handle in [current_doc]: which object it refers to. *)
Definition document_handle (w : World) : option nat :=
  option_map doc_id (current_doc w).

(** The world when [upload_finish] has stored the bytes and asked ezdxf
    to read them ... *)
Definition stored (file : UploadFile) (data : string) (w : World) : World :=
  let temp_path := joinpath (temp_dir w) (filename file) in
  add_event (EvLoad temp_path)
    (set_files (<[temp_path := data]> (files w)) (add_event (EvWriteFile temp_path) w)).

(** ... and when the drawing [d] has been loaded and rendered. *)
Definition installed (file : UploadFile) (data : string) (d : Drawing) (w : World) : World :=
  add_event (EvRender (next_id w))
    (set_current_filename (filename file)
       (set_current_doc {| doc_id := next_id w; doc := d |}
          (set_next_id (S (next_id w)) (stored file data w)))).

(** The worlds the server can be in. *)
Inductive reachable : World -> Prop :=
  | reachable_startup tmp disk : reachable (startup tmp disk)
  | reachable_step s w : reachable w -> reachable (step s w).



(** The identity in [current_doc] has been given out: a later
    [ezdxf.readfile] makes another object. *)
Definition numbered (w : World) : Prop :=
  forall i, document_handle w = Some i -> (i < next_id w)%nat.

(** The code that POST /api/chat hands to [exec] for this request and
    this document: the layers are listed, the model answers, the answer is
    split, and the code is not empty. *)
Definition generated (request : ChatRequest) (o : DocObject) : option string :=
  match layers_info_of (doc o) (layer_table (doc o)) with
  | Ok layers =>
      match model_reply (Prompt.system_prompt layers) (message request) with
      | Ok text =>
          match parse_response text with
          | Ok (_, code) => if Py.truthy code then Some code else None
          | Failed _ => None
          end
      | Failed _ => None
      end
  | Failed _ => None
  end.

(** Executed on [o] in the world [w], the code leaves the module globals
    alone: [current_doc] still is the object it was, the file name and the
    directory are what they were. *)
Definition keeps_globals (code : string) (o : DocObject) (w : World) : Prop :=
  let ran := py_exec code exec_globals o (reach w) in
  option_map doc_id (r_current_doc (left_reach ran)) = document_handle w
  /\ r_filename (left_reach ran) = current_filename w
  /\ r_temp_dir (left_reach ran) = temp_dir w.

(** Executed on [o] in the world [w], the code leaves the file at [path]
    where it is. *)
Definition keeps_file (path : string) (code : string) (o : DocObject) (w : World) : Prop :=
  let ran := py_exec code exec_globals o (reach w) in
  is_Some (files w !! path) -> is_Some (r_files (left_reach ran) !! path).

(** A property of the code that a step executes, if it executes any. *)
Definition of_executed (P : string -> DocObject -> World -> Prop) (s : Step) (w : World)
    : Prop :=
  match s with
  | Serve (PostChat request) =>
      match current_doc w with
      | Some o =>
          match generated request o with
          | Some code => P code o w
          | None => True
          end
      | None => True
      end
  | _ => True
  end.

(** ... and of all the code executed along a sequence of steps. *)
Fixpoint all_along (P : string -> DocObject -> World -> Prop) (steps : list Step) (w : World)
    : Prop :=
  match steps with
  | [] => True
  | s :: rest => of_executed P s w /\ all_along P rest (step s w)
  end.


(** *** Two uploads in flight *)











End Service.

(** ** The claim about the parser, in the specification's words

    "The code is taken from the first code fence if one exists, otherwise
    the empty string": the text between the first fence marker and the next
    one, without the language tag of the opening fence. *)
Definition first_fence (text : string) : option string :=
  match Py.find "```" text with
  | None => None
  | Some i =>
      let behind := Py.drop (i + 3) text in
      match Py.find "```" behind with
      | None => Some behind
      | Some j => Some (Py.take j behind)
      end
  end.

Definition without_tag (block : string) : string :=
  if Py.startswith "python" block then Py.drop 6 block else block.

Definition spec_code_of_first_fence (text : string) : string :=
  match first_fence text with
  | None => EmptyString
  | Some block => Py.strip (without_tag block)
  end.

(** "No operation persists the document beyond process memory": serving
    the request leaves the files as they are. *)
Definition persists_nothing `{Ext : External} (req : Request) (w : World) : Prop :=
  files (snd (handle req w)) = files w.

(** ** A small world for worked examples

    A drawing is the list of the layers of its entities; the file format is
    [DXF:] followed by those layers, separated by commas; the model answers
    with the user's message; the interpreter knows eight snippets; the
    temporary directory has no subdirectory [sub]. *)
Module Demo.

Definition parse (data : string) : Answer (list string) :=
  if Py.startswith "DXF:" data
  then Ok (filter (fun e => Py.truthy e) (Py.split "," (Py.drop 4 data)))
  else Failed (OtherError "DXFStructureError" "File is not a DXF file.").

Definition select (q : string) (d : list string) : Answer (list string) :=
  Ok (filter (fun e => String.eqb q ("*[layer==" +:+ dq +:+ e +:+ dq +:+ "]")) d).

Definition draw (config : Configuration) (page : Page) (d : list string) : Answer string :=
  if existsb (String.eqb "BROKEN") d
  then Failed (OtherError "DXFRenderError" "cannot draw entity")
  else Ok ("<svg>" +:+ Py.join "," d +:+ "</svg>").

Definition store (fs : gmap string string) (path data : string) : Answer unit :=
  if Py.contains "/sub/" path
  then Failed (OtherError "FileNotFoundError"
                 ("[Errno 2] No such file or directory: '" +:+ path +:+ "'"))
  else Ok tt.

Definition add_line : string := "doc.modelspace().add_line((0, 0), (1, 1))".
Definition delete_first : string := "msp = doc.modelspace()" +:+ nl +:+ "msp.delete_entity(msp[0])".
Definition leave : string := "raise SystemExit(1)".
Definition divide : string := "1/0".

(** Code that takes the document away from the server ... *)
Definition forget : string :=
  "import app.main" +:+ nl +:+ "app.main.current_doc = None".

(** ... that writes a file, that removes one ... *)
Definition jot : string := "open('/tmp/t/note.txt', 'w').write('hi')".
Definition unlink : string := "import os" +:+ nl +:+ "os.remove('/tmp/t/sketch.dxf')".

(** ... and that raises an exception which cannot be printed. *)
Definition mute : string :=
  "class Bad(Exception):" +:+ nl +:+ "    def __str__(self):" +:+ nl
  +:+ "        raise ValueError('no')" +:+ nl +:+ "raise Bad()".

Definition without_document (r : Reach (list string)) : Reach (list string) :=
  {| r_current_doc := None; r_filename := r_filename r;
     r_temp_dir := r_temp_dir r; r_files := r_files r |}.

Definition with_files (fs : gmap string string) (r : Reach (list string))
    : Reach (list string) :=
  {| r_current_doc := r_current_doc r; r_filename := r_filename r;
     r_temp_dir := r_temp_dir r; r_files := fs |}.

Definition interpret (source : string) (globals : list string)
    (o : DocObjectOf (list string)) (r : Reach (list string)) : Left (list string) :=
  let d := doc o in
  if String.eqb source add_line
  then {| left_doc := (d ++ ["0"])%list; left_reach := r; outcome := Completed |}
  else if String.eqb source delete_first
  then {| left_doc := tail d; left_reach := r; outcome := Completed |}
  else if String.eqb source leave
  then {| left_doc := d; left_reach := r;
          outcome := Raising (Exit "SystemExit" "1") EmptyString |}
  else if String.eqb source divide
  then {| left_doc := d; left_reach := r;
          outcome := Raising (Exc (OtherError "ZeroDivisionError" "division by zero"))
                             "ZeroDivisionError: division by zero" |}
  else if String.eqb source forget
  then {| left_doc := d; left_reach := without_document r; outcome := Completed |}
  else if String.eqb source jot
  then {| left_doc := d;
          left_reach := with_files (<["/tmp/t/note.txt" := "hi"]> (r_files r)) r;
          outcome := Completed |}
  else if String.eqb source unlink
  then match r_files r !! "/tmp/t/sketch.dxf" with
       | Some _ =>
           {| left_doc := d;
              left_reach := with_files (delete "/tmp/t/sketch.dxf" (r_files r)) r;
              outcome := Completed |}
       | None =>
           {| left_doc := d; left_reach := r;
              outcome := Raising (Exc (OtherError "FileNotFoundError"
                                         "[Errno 2] No such file or directory"))
                                 "FileNotFoundError" |}
       end
  else if String.eqb source mute
  then {| left_doc := d; left_reach := r;
          outcome := Raising (Unprintable "Bad" (Exc (OtherError "ValueError" "no")))
                             "Bad: <exception str() failed>" |}
  else {| left_doc := d; left_reach := r; outcome := Completed |}.

#[export] Instance ext : External := {|
  Drawing := list string;
  Entity := string;
  RLDrawing := string;
  readfile := parse;
  layer_table := fun _ => [("0", 7%Z); ("WALLS", 7%Z)];
  modelspace := fun d => d;
  query := select;
  render := draw;
  saveas := fun d => Ok ("DXF:" +:+ Py.join "," d);
  model_reply := fun _ user => Ok user;
  py_exec := interpret;
  write_bytes := store;
  svg2rlg := fun svg => Ok (Some svg);
  drawToFile := fun drawing => Ok drawing;
  index_html := None
|}.

Definition plan : UploadFile :=
  {| filename := "Plan.DXF"; content := "DXF:WALLS,WALLS,0" |}.

Definition sketch : UploadFile :=
  {| filename := "sketch.dxf"; content := "DXF:0" |}.

Definition notes : UploadFile :=
  {| filename := "notes.txt"; content := "hello" |}.


Definition fresh : World := startup "/tmp/t" ∅.

(** The world after [plan] has been uploaded. *)
Definition with_plan : World := step (Serve (PostUpload plan)) fresh.

(** A reply in the format the prompt asks for. *)
Definition reply (explanation source : string) : string :=
  "EXPLANATION: " +:+ explanation +:+ nl +:+ "CODE:" +:+ nl
  +:+ "```python" +:+ nl +:+ source +:+ nl +:+ "```".

(** A reply with a sketch in a plain fence before the python fence. *)
Definition two_fences : string :=
  "First the idea:" +:+ nl +:+ "```" +:+ nl +:+ "delete the doors" +:+ nl +:+ "```" +:+ nl
  +:+ "```python" +:+ nl +:+ "msp.delete_entity(door)" +:+ nl +:+ "```".

(** The world after [sketch] has been uploaded and a line added to it
    by chat. *)
Definition edited : World :=
  run [Serve (PostUpload sketch);
       Serve (PostChat {| message := reply "Add a line." add_line |})] fresh.

End Demo.

(** ** A world where the libraries fail

    As [Demo], but the model client fails on two messages, the query of
    the layer WALLS fails in a drawing with a [LOCKED] entity, svglib gives up
    on a drawing with a [HATCH], and three more snippets change the drawing
    or the globals before they raise. *)
Module Faulty.

Definition overloaded : string := "overloaded".
Definition closed : string := "closed".

Definition answer (system user : string) : Answer string :=
  if String.eqb user overloaded
  then Failed (OtherError "APIStatusError" "Overloaded")
  else if String.eqb user closed
  then Failed (RuntimeError "Cannot send a request, as the client has been closed.")
  else Ok user.

Definition add_then_divide : string :=
  "doc.modelspace().add_line((0, 0), (1, 1))" +:+ nl +:+ "1/0".

Definition add_then_leave : string :=
  "doc.modelspace().add_line((0, 0), (1, 1))" +:+ nl +:+ "exit()".

(** [doc] goes out of the server's hands, and then the code fails. *)
Definition forget_then_divide : string :=
  "import app.main" +:+ nl +:+ "app.main.current_doc = None" +:+ nl +:+ "1/0".

Definition interpret (source : string) (globals : list string)
    (o : DocObjectOf (list string)) (r : Reach (list string)) : Left (list string) :=
  let d := doc o in
  if String.eqb source add_then_divide
  then {| left_doc := (d ++ ["0"])%list; left_reach := r;
          outcome := Raising (Exc (OtherError "ZeroDivisionError" "division by zero"))
                             "ZeroDivisionError: division by zero" |}
  else if String.eqb source add_then_leave
  then {| left_doc := (d ++ ["0"])%list; left_reach := r;
          outcome := Raising (Exit "SystemExit" "None") EmptyString |}
  else if String.eqb source forget_then_divide
  then {| left_doc := d; left_reach := Demo.without_document r;
          outcome := Raising (Exc (OtherError "ZeroDivisionError" "division by zero"))
                             "ZeroDivisionError: division by zero" |}
  else Demo.interpret source globals o r.

Definition to_rlg (svg : string) : Answer (option string) :=
  if Py.contains "HATCH" svg then Ok None else Ok (Some svg).

Definition select (q : string) (d : list string) : Answer (list string) :=
  if existsb (String.eqb "LOCKED") d
     && String.eqb q ("*[layer==" +:+ dq +:+ "WALLS" +:+ dq +:+ "]")
  then Failed (RuntimeError "layer WALLS is locked")
  else Demo.select q d.

Definition ext : External := {|
  Drawing := list string;
  Entity := string;
  RLDrawing := string;
  readfile := Demo.parse;
  layer_table := fun _ => [("0", 7%Z); ("WALLS", 7%Z)];
  modelspace := fun d => d;
  query := select;
  render := Demo.draw;
  saveas := fun d => Ok ("DXF:" +:+ Py.join "," d);
  model_reply := answer;
  py_exec := interpret;
  write_bytes := Demo.store;
  svg2rlg := to_rlg;
  drawToFile := fun drawing => Ok ("%PDF " +:+ drawing);
  index_html := Some "<html></html>"
|}.

Definition broken : UploadFile :=
  {| filename := "broken.dxf"; content := "DXF:WALLS,BROKEN" |}.

Definition garbage : UploadFile :=
  {| filename := "garbage.dxf"; content := "not a drawing" |}.

Definition hatched : UploadFile :=
  {| filename := "hatched.dxf"; content := "DXF:HATCH" |}.

Definition fresh : @World ext := startup "/tmp/t" ∅.

(** The world after [Demo.sketch] has been uploaded. *)
Definition with_sketch : @World ext := step (Serve (PostUpload Demo.sketch)) fresh.

End Faulty.

Example split_demo :
  Py.split "CODE:" "EXPLANATION: a CODE: b CODE:" = ["EXPLANATION: a "; " b "; EmptyString].
Proof. reflexivity. Qed.

Example strip_demo : Py.strip (nl +:+ " a b  ") = "a b".
Proof. reflexivity. Qed.

Example replace_demo :
  Py.replace ".dxf" "_edited.dxf" "a.dxf.dxf" = "a_edited.dxf_edited.dxf".
Proof. reflexivity. Qed.

Example endswith_demo : Py.endswith ".dxf" (Py.lower "Plan.DXF") = true.
Proof. reflexivity. Qed.

Example joinpath_demo :
  (joinpath "/tmp/t" "Plan.DXF", joinpath "/tmp/t" "./a//b.dxf", joinpath "/tmp/t/" "temp.svg",
   joinpath "/tmp/t" "../x.dxf", joinpath "/tmp/t" "/etc/x.dxf")
  = ("/tmp/t/Plan.DXF", "/tmp/t/a/b.dxf", "/tmp/t/temp.svg",
     "/tmp/t/../x.dxf", "/etc/x.dxf").
Proof. reflexivity. Qed.

Example str_int_demo : (Py.str_int 120, Py.str_int 0, Py.str_int (-7)) = ("120", "0", "-7").
Proof. reflexivity. Qed.

Example parse_demo :
  parse_response (Demo.reply "Add a line." Demo.add_line) = Ok ("Add a line.", Demo.add_line).
Proof. reflexivity. Qed.

Example upload_demo :
  fst (upload_dxf Demo.plan Demo.fresh)
  = Return (UploadResult true "Plan.DXF" "<svg>WALLS,WALLS,0</svg>"
      [ {| name := "0"; color := 7; entity_count := 1 |};
        {| name := "WALLS"; color := 7; entity_count := 2 |} ]).
Proof. vm_compute. reflexivity. Qed.

Example chat_demo :
  fst (chat {| message := Demo.reply "Add a line." Demo.add_line |} Demo.with_plan)
  = Return (ChatResult {| response := "Add a line."; code := Demo.add_line;
                          executed := true; result := "1 element(s) added";
                          svg_updated := true |}).
Proof. vm_compute. reflexivity. Qed.

(** ** Facts about Python strings *)

Section StringFacts.
Local Arguments String.append !s1 s2 : simpl nomatch.
Implicit Types (s t u sub sep : string) (i j n : nat).

Lemma len_app s t : Py.len (s +:+ t) = (Py.len s + Py.len t)%nat.
Proof. induction s as [|c s IH]; simpl; [done | by rewrite IH]. Qed.

Lemma app_assoc_str s t u : (s +:+ t) +:+ u = s +:+ t +:+ u.
Proof. induction s as [|c s IH]; simpl; [done | by rewrite IH]. Qed.

Lemma app_empty_r s : s +:+ EmptyString = s.
Proof. induction s as [|c s IH]; simpl; [done | by rewrite IH]. Qed.

Lemma take_app s t : Py.take (Py.len s) (s +:+ t) = s.
Proof. induction s as [|c s IH]; simpl; [by destruct t | by rewrite IH]. Qed.

Lemma drop_app s t : Py.drop (Py.len s) (s +:+ t) = t.
Proof. induction s as [|c s IH]; simpl; done. Qed.

Lemma drop_add n i s : Py.drop (n + i) s = Py.drop i (Py.drop n s).
Proof.
  revert s; induction n as [|n IH]; intros s; simpl; [done|].
  destruct s as [|c s]; [by destruct i | apply IH].
Qed.

Lemma len_drop n s : Py.len (Py.drop n s) = (Py.len s - n)%nat.
Proof.
  revert s; induction n as [|n IH]; intros [|c s]; simpl; try done; try lia.
Qed.

Lemma take_app_ge n s t :
  (Py.len s <= n)%nat -> Py.take n (s +:+ t) = s +:+ Py.take (n - Py.len s) t.
Proof.
  revert n; induction s as [|c s IH]; intros n Hn; simpl in *.
  - by rewrite Nat.sub_0_r.
  - destruct n as [|n]; [lia|]. simpl. rewrite IH; [done | lia].
Qed.

Lemma take_drop n s : Py.take n s +:+ Py.drop n s = s.
Proof.
  revert s; induction n as [|n IH]; intros [|c s]; simpl; try done.
  by rewrite IH.
Qed.

Lemma take_all n s : (Py.len s <= n)%nat -> Py.take n s = s.
Proof.
  revert s; induction n as [|n IH]; intros [|c s] H; simpl in *; try done; try lia.
  rewrite IH; [done | lia].
Qed.

(** *** startswith *)

Lemma startswith_app sub s : Py.startswith sub (sub +:+ s) = true.
Proof.
  unfold Py.startswith. induction sub as [|c sub IH]; simpl; [by destruct s|].
  destruct (ascii_dec c c); [done | congruence].
Qed.

Lemma startswith_len sub s : Py.startswith sub s = true -> (Py.len sub <= Py.len s)%nat.
Proof.
  unfold Py.startswith. revert s.
  induction sub as [|c sub IH]; intros [|d s]; simpl; try done; try lia.
  destruct (ascii_dec c d); [|done]. intros H%IH. lia.
Qed.

(** Whether [sub] starts a string depends on as many characters as [sub]
    has. *)
Lemma startswith_within sub u t t' :
  (Py.len sub <= Py.len u)%nat ->
  Py.startswith sub (u +:+ t) = Py.startswith sub (u +:+ t').
Proof.
  unfold Py.startswith. revert u.
  induction sub as [|c sub IH]; intros [|d u] H; simpl in *; try done; try lia.
  - by destruct t, t'.
  - destruct (ascii_dec c d); [|done]. apply IH. lia.
Qed.

Lemma startswith_app_l sub sub' s :
  Py.startswith (sub +:+ sub') s = true -> Py.startswith sub s = true.
Proof.
  unfold Py.startswith. revert s; induction sub as [|c sub IH]; intros [|d s]; simpl; try done.
  destruct (ascii_dec c d); [apply IH | done].
Qed.

(** *** find *)

Lemma find_nil sub :
  Py.find sub EmptyString = if Py.startswith sub EmptyString then Some O else None.
Proof. done. Qed.

Lemma find_cons sub c s :
  Py.find sub (String c s)
  = if Py.startswith sub (String c s) then Some O else option_map S (Py.find sub s).
Proof. done. Qed.

Lemma find_bound sub s i : Py.find sub s = Some i -> (i + Py.len sub <= Py.len s)%nat.
Proof.
  revert i; induction s as [|c s IH]; intros i.
  - rewrite find_nil. destruct (Py.startswith sub EmptyString) eqn:E; [|done].
    intros [= <-]. apply startswith_len in E. simpl in *. lia.
  - rewrite find_cons. destruct (Py.startswith sub (String c s)) eqn:E.
    + intros [= <-]. apply startswith_len in E. simpl in *. lia.
    + destruct (Py.find sub s) as [k|]; [|done]. simpl. intros [= <-].
      specialize (IH k eq_refl). lia.
Qed.

(** An occurrence that lies within [u] is found whatever follows [u]. *)
Lemma find_within sub u t t' i :
  Py.find sub (u +:+ t) = Some i -> (i + Py.len sub <= Py.len u)%nat ->
  Py.find sub (u +:+ t') = Some i.
Proof.
  revert i; induction u as [|c u IH]; intros i Hf Hi.
  - simpl in Hi. assert (i = O) as -> by lia. assert (sub = EmptyString) as ->.
    { destruct sub; [done | simpl in Hi; lia]. }
    by destruct t'.
  - change (String c u +:+ t) with (String c (u +:+ t)) in Hf.
    change (String c u +:+ t') with (String c (u +:+ t')).
    rewrite find_cons in Hf. rewrite find_cons.
    change (String c (u +:+ t)) with (String c u +:+ t) in Hf.
    change (String c (u +:+ t')) with (String c u +:+ t').
    assert (Py.len sub <= Py.len (String c u))%nat as Hle by (simpl in *; lia).
    rewrite (startswith_within sub (String c u) t' t Hle).
    destruct (Py.startswith sub (String c u +:+ t)); [done|].
    destruct (Py.find sub (u +:+ t)) as [k|] eqn:E; [|done].
    simpl in Hf. injection Hf as <-.
    rewrite (IH k eq_refl); [done | simpl in Hi; lia].
Qed.

Lemma find_extend sub u t i :
  Py.find sub u = Some i -> Py.find sub (u +:+ t) = Some i.
Proof.
  intros H. apply (find_within sub u EmptyString t i).
  - by rewrite app_empty_r.
  - by apply find_bound.
Qed.

Lemma find_none_empty sub : sub <> EmptyString -> Py.find sub EmptyString = None.
Proof. by destruct sub. Qed.

(** Nothing occurs before the first occurrence. *)
Lemma find_take sub s i :
  sub <> EmptyString -> Py.find sub s = Some i -> Py.find sub (Py.take i s) = None.
Proof.
  intros Hne H. destruct (Py.find sub (Py.take i s)) as [j|] eqn:E; [|done].
  pose proof (find_bound _ _ _ E) as Hb.
  pose proof (find_extend _ _ (Py.drop i s) _ E) as H'.
  rewrite take_drop, H in H'. injection H' as ->.
  assert (Py.len (Py.take j s) <= j)%nat.
  { clear. revert s; induction j as [|j IH]; intros [|c s]; simpl; try lia.
    specialize (IH s). lia. }
  destruct sub; [done | simpl in *; lia].
Qed.

Lemma contains_find sub s : Py.contains sub s = true <-> exists i, Py.find sub s = Some i.
Proof.
  unfold Py.contains. destruct (Py.find sub s); split; try done; eauto.
  by intros [? ?].
Qed.

Lemma contains_false sub s : Py.contains sub s = false <-> Py.find sub s = None.
Proof. unfold Py.contains. by destruct (Py.find sub s). Qed.

(** Where [sub' = sub + more] occurs, [sub] occurs. *)
Lemma find_app_l sub sub' s :
  Py.find sub s = None -> Py.find (sub +:+ sub') s = None.
Proof.
  induction s as [|c s IH].
  - rewrite !find_nil. destruct (Py.startswith sub EmptyString) eqn:E; [done|]. intros _.
    destruct (Py.startswith (sub +:+ sub') EmptyString) eqn:E'; [|done].
    apply startswith_app_l in E'. congruence.
  - rewrite !find_cons. destruct (Py.startswith sub (String c s)) eqn:E; [done|].
    destruct (Py.startswith (sub +:+ sub') (String c s)) eqn:E'.
    { apply startswith_app_l in E'. congruence. }
    destruct (Py.find sub s); [done|]. intros _. by rewrite IH.
Qed.

Lemma find_startswith sub s : Py.startswith sub s = true -> Py.find sub s = Some O.
Proof. intros H. destruct s; [rewrite find_nil | rewrite find_cons]; by rewrite H. Qed.

Lemma contains_app sub s t : Py.contains sub (s +:+ sub +:+ t) = true.
Proof.
  apply contains_find. induction s as [|c s [i IH]].
  - exists O. change (EmptyString +:+ sub +:+ t) with (sub +:+ t).
    apply find_startswith, startswith_app.
  - change (String c s +:+ sub +:+ t) with (String c (s +:+ sub +:+ t)).
    rewrite find_cons.
    destruct (Py.startswith sub _); [by exists O|]. rewrite IH. by exists (S i).
Qed.

(** *** split *)

Lemma split_fuel_eq n sep s :
  Py.split_fuel n sep s
  = match Py.find sep s with
    | None => [s]
    | Some i =>
        match n with
        | O => [s]
        | S n' => Py.take i s :: Py.split_fuel n' sep (Py.drop (i + Py.len sep) s)
        end
    end.
Proof. by destruct n. Qed.

Lemma split_fuel_any sep n m s :
  sep <> EmptyString -> (Py.len s <= n)%nat -> (Py.len s <= m)%nat ->
  Py.split_fuel n sep s = Py.split_fuel m sep s.
Proof.
  intros Hne. revert m s; induction n as [|n IH]; intros m s Hn Hm.
  - destruct s; [|simpl in Hn; lia].
    rewrite !split_fuel_eq. by rewrite find_none_empty.
  - rewrite (split_fuel_eq (S n)), (split_fuel_eq m).
    destruct (Py.find sep s) as [i|] eqn:E; [|done].
    pose proof (find_bound _ _ _ E) as Hb.
    assert (1 <= Py.len sep)%nat by (destruct sep; [done | simpl; lia]).
    destruct m as [|m]; [lia|]. f_equal.
    apply IH; rewrite len_drop; lia.
Qed.

(** [split] cuts at the first occurrence and goes on behind it. *)
Lemma split_cons sep s i :
  sep <> EmptyString -> Py.find sep s = Some i ->
  Py.split sep s = Py.take i s :: Py.split sep (Py.drop (i + Py.len sep) s).
Proof.
  intros Hne E. unfold Py.split.
  pose proof (find_bound _ _ _ E) as Hb.
  assert (1 <= Py.len sep)%nat by (destruct sep; [done | simpl; lia]).
  destruct (Py.len s) as [|n] eqn:L; [lia|]. rewrite split_fuel_eq, E. f_equal.
  apply split_fuel_any; [done | | done]. rewrite len_drop. lia.
Qed.

Lemma split_none sep s : Py.find sep s = None -> Py.split sep s = [s].
Proof. intros E. unfold Py.split. by rewrite split_fuel_eq, E. Qed.

End StringFacts.

(** ** Facts about the parser *)

Section ParserFacts.
Implicit Types (s t text pre mid body rest fence sep : string) (i j : nat).

Lemma split_head sep s :
  Py.split sep s !! O
  = Some (match Py.find sep s with Some i => Py.take i s | None => s end).
Proof.
  unfold Py.split. rewrite split_fuel_eq.
  destruct (Py.find sep s) as [i|] eqn:E; [|done].
  destruct (Py.len s) eqn:L; [|done].
  apply find_bound in E. assert (i = O) as -> by lia. simpl.
  destruct s; [done | simpl in L; lia].
Qed.

Lemma item_split_head sep s :
  item (Py.split sep s) 0
  = Ok (match Py.find sep s with Some i => Py.take i s | None => s end).
Proof. unfold item. by rewrite split_head. Qed.

Lemma item_split_second sep s i :
  sep <> EmptyString -> Py.find sep s = Some i ->
  item (Py.split sep s) 1
  = Ok (let behind := Py.drop (i + Py.len sep) s in
        match Py.find sep behind with Some j => Py.take j behind | None => behind end).
Proof.
  intros Hne E. unfold item. rewrite (split_cons _ _ _ Hne E). simpl.
  by rewrite split_head.
Qed.

Lemma drop_app_app s t u : Py.drop (Py.len s + Py.len t) (s +:+ t +:+ u) = u.
Proof. by rewrite drop_add, !drop_app. Qed.

(** The block behind the first [fence], up to the next fence marker. *)
Lemma fenced_block fence pre body rest :
  fence <> EmptyString ->
  Py.find fence (pre +:+ fence +:+ body +:+ "```" +:+ rest) = Some (Py.len pre) ->
  Py.find "```" (body +:+ "```" +:+ rest) = Some (Py.len body) ->
  (forall i, Py.find fence (body +:+ "```" +:+ rest) = Some i ->
             i = Py.len body \/ (Py.len body + 3 <= i)%nat) ->
  fenced fence (pre +:+ fence +:+ body +:+ "```" +:+ rest) = Ok (Py.strip body).
Proof.
  intros Hne H1 H2 H3. unfold fenced.
  rewrite (item_split_second _ _ _ Hne H1). cbv zeta. rewrite drop_app_app. simpl and_then.
  destruct (Py.find fence (body +:+ "```" +:+ rest)) as [j|] eqn:E.
  - destruct (H3 j eq_refl) as [-> | Hj].
    + rewrite take_app, item_split_head.
      pose proof (find_take "```" _ _ ltac:(done) H2) as Hn.
      rewrite take_app in Hn. by rewrite Hn.
    + rewrite <- (app_assoc_str body "```" rest), take_app_ge
        by (rewrite len_app; simpl; lia).
      rewrite item_split_head.
      rewrite <- (app_assoc_str body "```" rest) in H2.
      rewrite (find_within _ _ _ (Py.take (j - Py.len (body +:+ "```")) rest) _ H2)
        by (rewrite len_app; simpl; lia).
      simpl and_then. by rewrite app_assoc_str, take_app.
  - rewrite item_split_head, H2. simpl and_then. by rewrite take_app.
Qed.

Lemma fenced_total fence s :
  fence <> EmptyString -> Py.contains fence s = true -> exists c, fenced fence s = Ok c.
Proof.
  intros Hne [i E]%contains_find. unfold fenced.
  rewrite (item_split_second _ _ _ Hne E). simpl and_then.
  rewrite item_split_head. simpl and_then. eauto.
Qed.

(** No index of the parser is out of range. *)
Lemma extract_code_total otherwise s : exists c, extract_code otherwise s = Ok c.
Proof.
  unfold extract_code.
  destruct (Py.contains "```python" s) eqn:E1; [by apply fenced_total|].
  destruct (Py.contains "```" s) eqn:E2; [by apply fenced_total | eauto].
Qed.

Lemma parse_response_total text : exists r, parse_response text = Ok r.
Proof.
  unfold parse_response. destruct (Py.contains "EXPLANATION:" text).
  - rewrite item_split_head. simpl and_then.
    destruct (1 <? length (Py.split "CODE:" text))%nat eqn:L; [|eauto].
    apply Nat.ltb_lt in L. unfold item at 1.
    destruct (Py.split "CODE:" text !! 1%nat) as [cp|] eqn:E.
    + simpl and_then. destruct (extract_code_total (Py.strip cp) cp) as [c ->].
      simpl. eauto.
    + apply lookup_ge_None in E. lia.
  - destruct (extract_code_total EmptyString text) as [c ->]. simpl. eauto.
Qed.

(** A python fence wins over a plain one. *)
Lemma extract_code_python otherwise pre body rest :
  Py.find "```python" (pre +:+ "```python" +:+ body +:+ "```" +:+ rest) = Some (Py.len pre) ->
  Py.find "```" (body +:+ "```" +:+ rest) = Some (Py.len body) ->
  (forall i, Py.find "```python" (body +:+ "```" +:+ rest) = Some i ->
             i = Py.len body \/ (Py.len body + 3 <= i)%nat) ->
  extract_code otherwise (pre +:+ "```python" +:+ body +:+ "```" +:+ rest)
  = Ok (Py.strip body).
Proof.
  intros H1 H2 H3. unfold extract_code.
  assert (Py.contains "```python" (pre +:+ "```python" +:+ body +:+ "```" +:+ rest) = true)
    as -> by (apply contains_find; eauto).
  by apply fenced_block.
Qed.

Lemma extract_code_plain otherwise pre body rest :
  Py.contains "```python" (pre +:+ "```" +:+ body +:+ "```" +:+ rest) = false ->
  Py.find "```" (pre +:+ "```" +:+ body +:+ "```" +:+ rest) = Some (Py.len pre) ->
  Py.find "```" (body +:+ "```" +:+ rest) = Some (Py.len body) ->
  extract_code otherwise (pre +:+ "```" +:+ body +:+ "```" +:+ rest) = Ok (Py.strip body).
Proof.
  intros H0 H1 H2. unfold extract_code. rewrite H0.
  assert (Py.contains "```" (pre +:+ "```" +:+ body +:+ "```" +:+ rest) = true)
    as -> by (apply contains_find; eauto).
  apply fenced_block; [done | done | done |].
  intros i Hi. left. congruence.
Qed.

Lemma extract_code_none otherwise s :
  Py.contains "```" s = false -> extract_code otherwise s = Ok otherwise.
Proof.
  intros H. unfold extract_code. rewrite H.
  apply contains_false in H.
  pose proof (find_app_l "```" "python" s H) as H'.
  change ("```" +:+ "python") with "```python" in H'.
  apply contains_false in H'. by rewrite H'.
Qed.

(** The reply in the format of the prompt: what is before the first
    [CODE:] gives the explanation, the python fence behind it the code,
    when no second [CODE:] cuts the fence short. *)
Lemma parse_response_format text pre mid body rest :
  Py.contains "EXPLANATION:" text = true ->
  text = pre +:+ "CODE:" +:+ mid +:+ "```python" +:+ body +:+ "```" +:+ rest ->
  Py.find "CODE:" text = Some (Py.len pre) ->
  (forall i, Py.find "CODE:" (mid +:+ "```python" +:+ body +:+ "```" +:+ rest) = Some i ->
             (Py.len (mid +:+ "```python" +:+ body +:+ "```") <= i)%nat) ->
  Py.find "```python" (mid +:+ "```python" +:+ body +:+ "```" +:+ rest) = Some (Py.len mid) ->
  Py.find "```" (body +:+ "```" +:+ rest) = Some (Py.len body) ->
  (forall i, Py.find "```python" (body +:+ "```" +:+ rest) = Some i ->
             i = Py.len body \/ (Py.len body + 3 <= i)%nat) ->
  parse_response text
  = Ok (Py.strip (Py.replace "EXPLANATION:" EmptyString pre), Py.strip body).
Proof.
  intros HE -> HC Hnext Hpy Hclose Hover.
  set (post := mid +:+ "```python" +:+ body +:+ "```" +:+ rest) in *.
  unfold parse_response. rewrite HE.
  rewrite item_split_head, HC, take_app. simpl and_then.
  assert ((1 <? length (Py.split "CODE:" (pre +:+ "CODE:" +:+ post)))%nat = true) as ->.
  { rewrite (split_cons "CODE:" _ _ ltac:(done) HC). simpl length.
    pose proof (split_head "CODE:"
                  (Py.drop (Py.len pre + Py.len "CODE:") (pre +:+ "CODE:" +:+ post))) as Hh.
    apply lookup_lt_Some in Hh. change (Py.len "CODE:") with 5%nat in Hh.
    apply Nat.ltb_lt. lia. }
  rewrite (item_split_second "CODE:" _ _ ltac:(done) HC). cbv zeta.
  rewrite drop_app_app. simpl and_then.
  (* the part between the first CODE: and the next holds the whole fence *)
  assert (exists r z, rest = r +:+ z /\
            match Py.find "CODE:" post with
            | Some j => Py.take j post
            | None => post
            end = mid +:+ "```python" +:+ body +:+ "```" +:+ r) as (r & z & Hrest & ->).
  { destruct (Py.find "CODE:" post) as [j|] eqn:E.
    - specialize (Hnext j eq_refl).
      exists (Py.take (j - Py.len (mid +:+ "```python" +:+ body +:+ "```")) rest),
             (Py.drop (j - Py.len (mid +:+ "```python" +:+ body +:+ "```")) rest).
      split; [by rewrite take_drop|]. subst post.
      rewrite <- (app_assoc_str body), <- (app_assoc_str "```python"), <- (app_assoc_str mid).
      rewrite take_app_ge by done.
      by rewrite !app_assoc_str.
    - exists rest, EmptyString. by rewrite app_empty_r. }
  subst rest post.
  rewrite extract_code_python; [done | | |].
  - rewrite <- (app_assoc_str mid) in Hpy |- *.
    apply (find_within _ _ _ _ _ Hpy). rewrite len_app. simpl. lia.
  - rewrite <- (app_assoc_str body) in Hclose |- *.
    apply (find_within _ _ _ _ _ Hclose). rewrite len_app. simpl. lia.
  - intros i Hi. apply Hover.
    apply (find_extend _ _ z) in Hi. by rewrite !app_assoc_str in Hi.
Qed.

End ParserFacts.

(** ** Facts about the handlers *)

Section HandlerFacts.
Context `{Ext : External}.
Implicit Types (w : World) (o : DocObject) (file : UploadFile).

Local Arguments Prompt.system_prompt : simpl never.
Local Arguments count_message : simpl never.
Local Arguments parse_response : simpl never.
Local Arguments Py.endswith : simpl never.
Local Arguments Py.lower : simpl never.
Local Arguments Py.replace : simpl never.
Local Arguments joinpath : simpl never.

Ltac run := cbv [bind try_except gets modify ret raise call]; simpl.

Lemma count_message_removed before after n :
  (0 < n)%nat -> (after + n = before)%nat ->
  count_message before after = Py.str_int (Z.of_nat n) +:+ " element(s) removed".
Proof.
  intros Hn H. unfold count_message.
  assert (Z.of_nat after - Z.of_nat before = - Z.of_nat n)%Z as -> by lia.
  destruct (Z.ltb_spec (- Z.of_nat n) 0); [|lia].
  by rewrite Z.abs_opp, Z.abs_eq by lia.
Qed.

Lemma count_message_added before after n :
  (0 < n)%nat -> (before + n = after)%nat ->
  count_message before after = Py.str_int (Z.of_nat n) +:+ " element(s) added".
Proof.
  intros Hn H. unfold count_message.
  assert (Z.of_nat after - Z.of_nat before = Z.of_nat n)%Z as -> by lia.
  destruct (Z.ltb_spec (Z.of_nat n) 0); [lia|].
  destruct (Z.ltb_spec 0 (Z.of_nat n)); [done | lia].
Qed.

Lemma count_message_same n :
  count_message n n = "Changes applied successfully".
Proof. unfold count_message. by rewrite Z.sub_diag. Qed.

Lemma reach_add_event ev w : reach (add_event ev w) = reach w.
Proof. reflexivity. Qed.

Lemma execute_completed source o w :
  outcome (py_exec source exec_globals o (reach w)) = Completed ->
  fst (execute_ezdxf_code source o w)
  = Return (count_message (length (modelspace (doc o)))
              (length (modelspace (left_doc (py_exec source exec_globals o (reach w)))))).
Proof. intros H. unfold execute_ezdxf_code, run_exec. run. by rewrite H. Qed.

Lemma dxf_to_svg_eq o w :
  dxf_to_svg o w
  = (match render svg_config auto_page (doc o) with
     | Ok svg => Return svg
     | Failed e => Throw (Exc e)
     end, add_event (EvRender (doc_id o)) w).
Proof. unfold dxf_to_svg. run. by destruct (render _ _ _). Qed.

Lemma get_layers_info_eq o w :
  get_layers_info o w
  = (match layers_info_of (doc o) (layer_table (doc o)) with
     | Ok layers => Return layers
     | Failed e => Throw (Exc e)
     end, w).
Proof. unfold get_layers_info. run. by destruct (layers_info_of _ _). Qed.

Lemma generate_eq user_message layers_info w :
  generate_ezdxf_code user_message layers_info w
  = (match model_reply (Prompt.system_prompt layers_info) user_message with
     | Ok text =>
         match parse_response text with
         | Ok r => Return r
         | Failed e => Throw (Exc e)
         end
     | Failed e => Throw (Exc e)
     end,
     add_event (EvModel (Prompt.system_prompt layers_info) user_message) w).
Proof.
  unfold generate_ezdxf_code. run.
  destruct (model_reply _ _); [|done]. by destruct (parse_response _).
Qed.

Lemma execute_eq source o w :
  execute_ezdxf_code source o w
  = (match outcome (py_exec source exec_globals o (reach w)) with
     | Completed =>
         Return (count_message (length (modelspace (doc o)))
                   (length (modelspace (left_doc (py_exec source exec_globals o (reach w))))))
     | Raising e traceback =>
         if is_Exception e
         then match str_raised e with
              | Return text =>
                  Throw (Exc (RuntimeError
                    ("Code execution failed: " +:+ text +:+ nl +:+ traceback)))
              | Throw inner => Throw inner
              end
         else Throw e
     end, after_exec source o w).
Proof.
  unfold execute_ezdxf_code, run_exec. run.
  destruct (outcome (py_exec _ _ _ _)) as [|e tb]; [done|].
  destruct (is_Exception e); [|done]. by destruct (str_raised e).
Qed.

Lemma upload_begin_eq file w :
  upload_begin file w
  = if Py.endswith ".dxf" (Py.lower (filename file))
    then (Return (content file), add_event (EvReadUpload (filename file)) w)
    else (Throw (Exc (HTTPException 400 "File must be a DXF file")), w).
Proof. unfold upload_begin. by destruct (Py.endswith _ _). Qed.

(** The write comes before the [try]: its exception leaves the handler
    as it is, and nothing has been done. *)
Lemma upload_finish_unwritable file data w e :
  write_bytes (files w) (joinpath (temp_dir w) (filename file)) data = Failed e ->
  upload_finish file data w = (Throw (Exc e), w).
Proof. intros H. unfold upload_finish, write_upload. run. by rewrite H. Qed.

Lemma upload_finish_failed file data w e :
  write_bytes (files w) (joinpath (temp_dir w) (filename file)) data = Ok tt ->
  readfile data = Failed e ->
  upload_finish file data w
  = (Throw (Exc (HTTPException 500 ("Failed to process DXF: " +:+ str_error e))),
     stored file data w).
Proof.
  intros Hw H. unfold upload_finish, write_upload, write_file, ezdxf_readfile, stored. run.
  rewrite Hw. simpl. by rewrite lookup_insert_eq, H.
Qed.

Lemma upload_finish_loaded file data w d :
  write_bytes (files w) (joinpath (temp_dir w) (filename file)) data = Ok tt ->
  readfile data = Ok d ->
  upload_finish file data w
  = (match render svg_config auto_page d with
     | Failed e =>
         Throw (Exc (HTTPException 500 ("Failed to process DXF: " +:+ str_error e)))
     | Ok svg =>
         match layers_info_of d (layer_table d) with
         | Failed e =>
             Throw (Exc (HTTPException 500 ("Failed to process DXF: " +:+ str_error e)))
         | Ok layers => Return (UploadResult true (filename file) svg layers)
         end
     end, installed file data d w).
Proof.
  intros Hw H.
  unfold upload_finish, write_upload, write_file, ezdxf_readfile, installed, stored. run.
  rewrite Hw. simpl. rewrite lookup_insert_eq, H. simpl.
  unfold dxf_to_svg, get_layers_info. run.
  destruct (render _ _ _); [|done]. simpl.
  by destruct (layers_info_of _ _).
Qed.

Lemma chat_except_world bound e w : snd (chat_except bound e w) = w.
Proof. by destruct e as [[]| |]. Qed.

(** [chat] with a document loaded, case by case. *)
Lemma chat_eq request w o :
  current_doc w = Some o ->
  chat request w
  = match layers_info_of (doc o) (layer_table (doc o)) with
    | Failed e => chat_except None (Exc e) w
    | Ok layers =>
        let w1 := add_event (EvModel (Prompt.system_prompt layers) (message request)) w in
        match model_reply (Prompt.system_prompt layers) (message request) with
        | Failed e => chat_except None (Exc e) w1
        | Ok text =>
            match parse_response text with
            | Failed e => chat_except None (Exc e) w1
            | Ok (explanation, source) =>
                if Py.truthy source then
                  let ran := py_exec source exec_globals o (reach w) in
                  match outcome ran with
                  | Completed =>
                      (Return (ChatResult
                         {| response := explanation; code := source; executed := true;
                            result := count_message (length (modelspace (doc o)))
                                        (length (modelspace (left_doc ran)));
                            svg_updated := true |}),
                       after_exec source o w1)
                  | Raising e traceback =>
                      if is_Exception e then
                        match str_raised e with
                        | Return shown =>
                            let msg := "Code execution failed: " +:+ shown
                                       +:+ nl +:+ traceback in
                            (Return (ChatResult
                               {| response := "Error executing code: " +:+ msg;
                                  code := source; executed := false;
                                  result := msg; svg_updated := false |}),
                             after_exec source o w1)
                        | Throw inner =>
                            (fst (chat_except (Some source) inner w), after_exec source o w1)
                        end
                      else (Throw e, after_exec source o w1)
                  end
                else
                  (Return (ChatResult
                     {| response :=
                          if Py.truthy explanation then explanation
                          else "I couldn't generate code for that request. Please try rephrasing.";
                        code := EmptyString; executed := false;
                        result := EmptyString; svg_updated := false |}), w1)
            end
        end
    end.
Proof.
  intros H. unfold chat.
  cbv [bind try_except gets]. rewrite H.
  rewrite get_layers_info_eq.
  destruct (layers_info_of _ _) as [layers|e]; [|done].
  rewrite generate_eq. cbv zeta.
  destruct (model_reply _ _) as [text|e]; [|done].
  destruct (parse_response text) as [[explanation source]|e]; [|done].
  cbn [fst snd]. destruct (Py.truthy source); cbn [negb]; [|done].
  rewrite execute_eq. rewrite reach_add_event.
  destruct (outcome (py_exec _ _ _ _)) as [|e tb]; [done|].
  destruct e as [e| |cls thrown]; [done|done|].
  simpl. by destruct thrown as [[]| |].
Qed.

(** The world that [chat] leaves: the one it found, with the call of the
    model in the log, and changed by the code when code was executed. *)
Lemma chat_world request w o :
  current_doc w = Some o ->
  snd (chat request w)
  = match layers_info_of (doc o) (layer_table (doc o)) with
    | Failed _ => w
    | Ok layers =>
        let w1 := add_event (EvModel (Prompt.system_prompt layers) (message request)) w in
        match generated request o with
        | Some source => after_exec source o w1
        | None => w1
        end
    end.
Proof.
  intros H. rewrite (chat_eq _ _ _ H). unfold generated.
  destruct (layers_info_of _ _) as [layers|e]; [|by rewrite chat_except_world].
  cbv zeta. destruct (model_reply _ _) as [text|e]; [|by rewrite chat_except_world].
  destruct (parse_response text) as [[explanation source]|e];
    [|by rewrite chat_except_world].
  destruct (Py.truthy source); [|done].
  destruct (outcome _) as [|e tb]; [done|].
  destruct (is_Exception e); [|done]. by destruct (str_raised e).
Qed.

Lemma chat_world_cases request w o :
  current_doc w = Some o ->
  match generated request o with
  | Some source => exists ev, snd (chat request w) = after_exec source o (add_event ev w)
  | None => snd (chat request w) = w \/ exists ev, snd (chat request w) = add_event ev w
  end.
Proof.
  intros H. rewrite (chat_world _ _ _ H).
  destruct (layers_info_of _ _) as [layers|e] eqn:El.
  - cbv zeta. destruct (generated request o); eauto.
  - unfold generated. rewrite El. by left.
Qed.

(** What [chat] answers when it has code to execute. *)
Lemma chat_ran request w o source :
  current_doc w = Some o ->
  generated request o = Some source ->
  let ran := py_exec source exec_globals o (reach w) in
  exists explanation,
    fst (chat request w)
    = match outcome ran with
      | Completed =>
          Return (ChatResult
            {| response := explanation; code := source; executed := true;
               result := count_message (length (modelspace (doc o)))
                           (length (modelspace (left_doc ran)));
               svg_updated := true |})
      | Raising e traceback =>
          if is_Exception e then
            match str_raised e with
            | Return shown =>
                let msg := "Code execution failed: " +:+ shown +:+ nl +:+ traceback in
                Return (ChatResult
                  {| response := "Error executing code: " +:+ msg;
                     code := source; executed := false;
                     result := msg; svg_updated := false |})
            | Throw inner => fst (chat_except (Some source) inner w)
            end
          else Throw e
      end.
Proof.
  intros H Hg ran. rewrite (chat_eq _ _ _ H). unfold generated in Hg.
  destruct (layers_info_of _ _) as [layers|e]; [|done].
  cbv zeta. destruct (model_reply _ _) as [text|e]; [|done].
  destruct (parse_response text) as [[explanation src]|e]; [|done].
  destruct (Py.truthy src); [|done]. injection Hg as ->.
  exists explanation. fold ran.
  destruct (outcome ran) as [|e tb]; [done|].
  destruct (is_Exception e); [|done]. by destruct (str_raised e).
Qed.

(** *** What the executed code leaves *)

Lemma after_exec_log source o w :
  log (after_exec source o w) = (log w ++ [EvExec source exec_globals (doc_id o)])%list.
Proof. done. Qed.

Lemma after_exec_files source o w :
  files (after_exec source o w)
  = r_files (left_reach (py_exec source exec_globals o (reach w))).
Proof. done. Qed.

(** The identity in [current_doc] lies below the next one to be given
    out, whatever the code did. *)
Lemma after_exec_numbered source o w : numbered (after_exec source o w).
Proof.
  intros i. unfold document_handle, after_exec. simpl.
  destruct (r_current_doc _) as [cur|]; [|done].
  destruct (Nat.eqb_spec (doc_id cur) (doc_id o)) as [E|E]; simpl; intros [= <-]; lia.
Qed.

(** Code that leaves the globals alone keeps the object in [current_doc];
    its content is what the code left. *)
Lemma after_exec_kept source o w :
  current_doc w = Some o ->
  keeps_globals source o w ->
  current_doc (after_exec source o w)
  = Some {| doc_id := doc_id o;
            doc := left_doc (py_exec source exec_globals o (reach w)) |}
  /\ current_filename (after_exec source o w) = current_filename w
  /\ temp_dir (after_exec source o w) = temp_dir w
  /\ (next_id w <= next_id (after_exec source o w))%nat.
Proof.
  intros H (Hd & Hf & Ht). unfold after_exec. simpl.
  unfold document_handle in Hd. rewrite H in Hd. simpl in Hd.
  destruct (r_current_doc _) as [cur|]; [|done]. injection Hd as Hd.
  rewrite Hd, Nat.eqb_refl. repeat split; [done | done | lia].
Qed.


Lemma export_dxf_files w o data :
  current_doc w = Some o -> saveas (doc o) = Ok data ->
  files (snd (export_dxf w))
  = <[joinpath (temp_dir w) (Py.replace ".dxf" "_edited.dxf" (current_filename w)) := data]>
      (files w).
Proof.
  intros H Hs. unfold export_dxf, write_file. run. rewrite H. simpl. by rewrite Hs.
Qed.

Lemma chat_unloaded request w :
  current_doc w = None ->
  chat request w
  = (Throw (Exc (HTTPException 400 "No DXF file loaded. Please upload a file first.")), w).
Proof. intros H. unfold chat. cbv [bind gets]. by rewrite H. Qed.

Lemma get_svg_eq w o :
  current_doc w = Some o ->
  get_svg w
  = (match render svg_config auto_page (doc o) with
     | Ok svg => Return (Response svg "image/svg+xml")
     | Failed e => Throw (Exc e)
     end, add_event (EvRender (doc_id o)) w).
Proof.
  intros H. unfold get_svg. cbv [bind gets]. rewrite H, dxf_to_svg_eq.
  by destruct (render _ _ _).
Qed.

Lemma get_layers_eq w o :
  current_doc w = Some o ->
  get_layers w
  = (match layers_info_of (doc o) (layer_table (doc o)) with
     | Ok layers => Return (LayersResult layers)
     | Failed e => Throw (Exc e)
     end, w).
Proof.
  intros H. unfold get_layers. cbv [bind gets]. rewrite H, get_layers_info_eq.
  by destruct (layers_info_of _ _).
Qed.

(** The exports write files; the globals stay. *)
Lemma export_dxf_frame w :
  current_doc (snd (export_dxf w)) = current_doc w
  /\ current_filename (snd (export_dxf w)) = current_filename w
  /\ temp_dir (snd (export_dxf w)) = temp_dir w
  /\ next_id (snd (export_dxf w)) = next_id w.
Proof.
  unfold export_dxf, write_file. run.
  destruct (current_doc w) eqn:E; simpl; [|done]. by destruct (saveas _).
Qed.

Lemma export_pdf_frame w :
  current_doc (snd (export_pdf w)) = current_doc w
  /\ current_filename (snd (export_pdf w)) = current_filename w
  /\ temp_dir (snd (export_pdf w)) = temp_dir w
  /\ next_id (snd (export_pdf w)) = next_id w.
Proof.
  unfold export_pdf, write_file. run.
  destruct (current_doc w) eqn:E; simpl; [|done].
  destruct (render _ _ _); [|done]. simpl.
  destruct (svg2rlg _) as [[drawing|]|]; [|done|done]. simpl.
  by destruct (drawToFile _).
Qed.

Lemma serve_frontend_world w : snd (serve_frontend w) = w.
Proof. unfold serve_frontend. by destruct index_html. Qed.




End HandlerFacts.

(** ** Facts about the server as a whole *)

Section ServiceFacts.
Context `{Ext : External}.
Implicit Types (w : World) (o : DocObject) (file : UploadFile) (req : Request).

Local Arguments Py.endswith : simpl never.
Local Arguments Py.lower : simpl never.
Local Arguments joinpath : simpl never.

Lemma upload_dxf_eq file w :
  upload_dxf file w
  = if Py.endswith ".dxf" (Py.lower (filename file))
    then upload_finish file (content file) (add_event (EvReadUpload (filename file)) w)
    else (Throw (Exc (HTTPException 400 "File must be a DXF file")), w).
Proof.
  unfold upload_dxf. cbv [bind]. rewrite upload_begin_eq.
  by destruct (Py.endswith _ _).
Qed.


Lemma upload_dxf_failed file w e :
  Py.endswith ".dxf" (Py.lower (filename file)) = true ->
  write_bytes (files w) (joinpath (temp_dir w) (filename file)) (content file) = Ok tt ->
  readfile (content file) = Failed e ->
  upload_dxf file w
  = (Throw (Exc (HTTPException 500 ("Failed to process DXF: " +:+ str_error e))),
     stored file (content file) (add_event (EvReadUpload (filename file)) w)).
Proof.
  intros Hname Hw He. rewrite upload_dxf_eq, Hname.
  by apply (upload_finish_failed file (content file) (add_event _ w)).
Qed.

Lemma upload_dxf_loaded file w d :
  Py.endswith ".dxf" (Py.lower (filename file)) = true ->
  write_bytes (files w) (joinpath (temp_dir w) (filename file)) (content file) = Ok tt ->
  readfile (content file) = Ok d ->
  upload_dxf file w
  = (match render svg_config auto_page d with
     | Failed e =>
         Throw (Exc (HTTPException 500 ("Failed to process DXF: " +:+ str_error e)))
     | Ok svg =>
         match layers_info_of d (layer_table d) with
         | Failed e =>
             Throw (Exc (HTTPException 500 ("Failed to process DXF: " +:+ str_error e)))
         | Ok layers => Return (UploadResult true (filename file) svg layers)
         end
     end, installed file (content file) d (add_event (EvReadUpload (filename file)) w)).
Proof.
  intros Hname Hw Hd. rewrite upload_dxf_eq, Hname.
  by apply (upload_finish_loaded file (content file) (add_event _ w)).
Qed.

(** An upload that answers with success has stored and loaded its file. *)
Lemma upload_dxf_succeeded file w p :
  fst (upload_dxf file w) = Return p ->
  Py.endswith ".dxf" (Py.lower (filename file)) = true
  /\ write_bytes (files w) (joinpath (temp_dir w) (filename file)) (content file) = Ok tt
  /\ exists d, readfile (content file) = Ok d.
Proof.
  intros H. rewrite upload_dxf_eq in H.
  destruct (Py.endswith _ _) eqn:Hname; [|done]. split; [done|].
  destruct (write_bytes (files w) (joinpath (temp_dir w) (filename file)) (content file))
    as [[]|e] eqn:Hw.
  - split; [done|]. destruct (readfile (content file)) as [d|e] eqn:Hd; [by exists d|].
    by rewrite (upload_finish_failed file (content file) (add_event _ w) e Hw Hd) in H.
  - by rewrite (upload_finish_unwritable file (content file) (add_event _ w) e Hw) in H.
Qed.

Lemma upload_dxf_files file w :
  Py.endswith ".dxf" (Py.lower (filename file)) = true ->
  write_bytes (files w) (joinpath (temp_dir w) (filename file)) (content file) = Ok tt ->
  files (snd (upload_dxf file w))
  = <[joinpath (temp_dir w) (filename file) := content file]> (files w).
Proof.
  intros H Hw. destruct (readfile (content file)) as [d|e] eqn:E.
  - by rewrite (upload_dxf_loaded _ _ _ H Hw E).
  - by rewrite (upload_dxf_failed _ _ _ H Hw E).
Qed.


Lemma numbered_same w w' :
  document_handle w' = document_handle w ->
  (next_id w <= next_id w')%nat ->
  numbered w -> numbered w'.
Proof. unfold numbered. intros -> Hn Hw i Hi. specialize (Hw i Hi). lia. Qed.

(** The three ways the second half of an upload can go. *)
Lemma upload_finish_world file data w :
  snd (upload_finish file data w) = w
  \/ snd (upload_finish file data w) = stored file data w
  \/ exists d, snd (upload_finish file data w) = installed file data d w.
Proof.
  destruct (write_bytes (files w) (joinpath (temp_dir w) (filename file)) data)
    as [[]|e] eqn:Hw.
  - destruct (readfile data) as [d|e] eqn:E.
    + right; right. exists d. by rewrite (upload_finish_loaded _ _ _ _ Hw E).
    + right; left. by rewrite (upload_finish_failed _ _ _ _ Hw E).
  - left. by rewrite (upload_finish_unwritable _ _ _ _ Hw).
Qed.


Lemma upload_finish_numbered file data w :
  numbered w -> numbered (snd (upload_finish file data w)).
Proof.
  intros Hw. destruct (upload_finish_world file data w) as [-> | [-> | [d ->]]].
  - done.
  - by apply (numbered_same w).
  - intros i. unfold document_handle. simpl. intros [= <-]. lia.
Qed.

(** What a request other than an upload or a chat does to the globals:
    nothing. *)
Lemma handle_frame req w :
  (forall file, req <> PostUpload file) ->
  (forall request, req <> PostChat request) ->
  current_doc (snd (handle req w)) = current_doc w
  /\ current_filename (snd (handle req w)) = current_filename w
  /\ temp_dir (snd (handle req w)) = temp_dir w
  /\ next_id (snd (handle req w)) = next_id w.
Proof.
  intros Hreq Hchat. destruct req as [|file| | |request| |]; simpl.
  - by rewrite serve_frontend_world.
  - by destruct (Hreq file).
  - destruct (current_doc w) as [o|] eqn:E.
    + by rewrite (get_svg_eq _ _ E).
    + unfold get_svg. cbv [bind gets]. by rewrite E.
  - destruct (current_doc w) as [o|] eqn:E.
    + by rewrite (get_layers_eq _ _ E).
    + unfold get_layers. cbv [bind gets]. by rewrite E.
  - by destruct (Hchat request).
  - by destruct (export_dxf_frame w) as (-> & -> & -> & ->).
  - by destruct (export_pdf_frame w) as (-> & -> & -> & ->).
Qed.


Lemma chat_numbered request w : numbered w -> numbered (snd (chat request w)).
Proof.
  intros Hw. destruct (current_doc w) as [o|] eqn:E;
    [|by rewrite (chat_unloaded _ _ E)].
  rewrite (chat_world _ _ _ E).
  destruct (layers_info_of _ _) as [layers|e]; [|done]. cbv zeta.
  destruct (generated request o) as [source|]; [apply after_exec_numbered|].
  by apply (numbered_same w).
Qed.


Lemma handle_numbered req w : numbered w -> numbered (snd (handle req w)).
Proof.
  intros Hw.
  assert (forall r, (forall file, r <> PostUpload file) ->
            (forall request, r <> PostChat request) -> numbered (snd (handle r w))) as F.
  { intros r Hu Hc. destruct (handle_frame r w Hu Hc) as (H1 & H2 & H3 & H4).
    apply (numbered_same w); [unfold document_handle; by rewrite H1 | lia | done]. }
  destruct req as [|file| | |request| |]; try (by apply F).
  - simpl. rewrite upload_dxf_eq. destruct (Py.endswith _ _) eqn:E; [|done].
    apply upload_finish_numbered. by apply (numbered_same w).
  - by apply chat_numbered.
Qed.


Lemma step_numbered s w : numbered w -> numbered (step s w).
Proof.
  intros Hw. destruct s as [req|file|file]; simpl.
  - by apply handle_numbered.
  - rewrite upload_begin_eq. destruct (Py.endswith _ _); [|done].
    by apply (numbered_same w).
  - rewrite upload_begin_eq. destruct (Py.endswith _ _) eqn:E; [|done].
    by apply upload_finish_numbered.
Qed.



Lemma reachable_numbered w : reachable w -> numbered w.
Proof.
  induction 1 as [tmp disk | s w _ IH]; [done | by apply step_numbered].
Qed.

Lemma reachable_run steps w : reachable w -> reachable (run steps w).
Proof.
  revert w; induction steps as [|s steps IH]; intros w Hw; [done|].
  simpl. apply IH. by constructor.
Qed.

End ServiceFacts.

(** ** Two uploads on the event loop *)

Section TwoUploads.
Context `{Ext : External}.
Variables (tmp : string) (a b : UploadFile) (da db : Drawing) (sa sb : string)
  (la lb : list LayerInfo).
Hypothesis a_name : Py.endswith ".dxf" (Py.lower (filename a)) = true.
Hypothesis b_name : Py.endswith ".dxf" (Py.lower (filename b)) = true.
Hypothesis a_stores :
  forall fs, write_bytes fs (joinpath tmp (filename a)) (content a) = Ok tt.
Hypothesis b_stores :
  forall fs, write_bytes fs (joinpath tmp (filename b)) (content b) = Ok tt.
Hypothesis a_loads : readfile (content a) = Ok da.
Hypothesis b_loads : readfile (content b) = Ok db.
Hypothesis a_draws : render svg_config auto_page da = Ok sa.
Hypothesis b_draws : render svg_config auto_page db = Ok sb.
Hypothesis a_layers : layers_info_of da (layer_table da) = Ok la.
Hypothesis b_layers : layers_info_of db (layer_table db) = Ok lb.

Local Arguments Py.endswith : simpl never.
Local Arguments Py.lower : simpl never.
Local Arguments joinpath : simpl never.




End TwoUploads.

(** ** More about the parser *)

Section MoreParserFacts.
Implicit Types (s t text pre post body rest fence old new : string).

Lemma join_one sep s : Py.join sep [s] = s.
Proof. done. Qed.

Lemma join_two sep s t : Py.join sep [s; t] = s +:+ sep +:+ t.
Proof. done. Qed.

Lemma replace_none old new s : Py.find old s = None -> Py.replace old new s = s.
Proof. intros H. unfold Py.replace. by rewrite (split_none _ _ H). Qed.

Lemma replace_suffix old new s :
  old <> EmptyString -> Py.find old (s +:+ old) = Some (Py.len s) ->
  Py.replace old new (s +:+ old) = s +:+ new.
Proof.
  intros Hne H. unfold Py.replace. rewrite (split_cons _ _ _ Hne H).
  rewrite take_app. rewrite <- (app_empty_r old) at 3.
  rewrite drop_app_app. rewrite (split_none old EmptyString) by by apply find_none_empty.
  rewrite join_two. by rewrite app_empty_r.
Qed.

(** The block behind a fence that is never closed: the rest of the text. *)
Lemma fenced_open fence pre body :
  fence <> EmptyString ->
  Py.find fence (pre +:+ fence +:+ body) = Some (Py.len pre) ->
  Py.find fence body = None ->
  Py.find "```" body = None ->
  fenced fence (pre +:+ fence +:+ body) = Ok (Py.strip body).
Proof.
  intros Hne H1 H2 H3. unfold fenced.
  rewrite (item_split_second _ _ _ Hne H1). cbv zeta. rewrite drop_app_app, H2.
  simpl and_then. by rewrite item_split_head, H3.
Qed.

(** What [parse_response] does with a text that holds "EXPLANATION:" and a
    first "CODE:" after [pre]. *)
Lemma parse_response_code_part text pre post :
  Py.contains "EXPLANATION:" text = true ->
  text = pre +:+ "CODE:" +:+ post ->
  Py.find "CODE:" text = Some (Py.len pre) ->
  let code_part :=
    match Py.find "CODE:" post with Some j => Py.take j post | None => post end in
  parse_response text
  = and_then (extract_code (Py.strip code_part) code_part) (fun source =>
    Ok (Py.strip (Py.replace "EXPLANATION:" EmptyString pre), source)).
Proof.
  intros HE -> HC code_part. unfold parse_response. rewrite HE.
  rewrite item_split_head, HC, take_app. simpl and_then.
  assert ((1 <? length (Py.split "CODE:" (pre +:+ "CODE:" +:+ post)))%nat = true) as ->.
  { rewrite (split_cons "CODE:" _ _ ltac:(done) HC). simpl length.
    pose proof (split_head "CODE:"
                  (Py.drop (Py.len pre + Py.len "CODE:") (pre +:+ "CODE:" +:+ post))) as Hh.
    apply lookup_lt_Some in Hh. change (Py.len "CODE:") with 5%nat in Hh.
    apply Nat.ltb_lt. lia. }
  rewrite (item_split_second "CODE:" _ _ ltac:(done) HC). cbv zeta.
  by rewrite drop_app_app.
Qed.

End MoreParserFacts.

(** ** More about the handlers *)

Section MoreHandlerFacts.
Context `{Ext : External}.
Implicit Types (w : World) (o : DocObject) (file : UploadFile).

Local Arguments Py.replace : simpl never.
Local Arguments Py.endswith : simpl never.
Local Arguments Py.lower : simpl never.
Local Arguments joinpath : simpl never.
Local Arguments Prompt.system_prompt : simpl never.

(** The entries of [get_layers_info] follow the layer table, one by one. *)
Lemma layers_info_of_ok (d : Drawing) (table : list (string * Z)) (layers : list LayerInfo) :
  layers_info_of d table = Ok layers ->
  Forall2 (fun row l =>
             name l = fst row /\ color l = snd row
             /\ exists found,
                  query ("*[layer==" +:+ dq +:+ fst row +:+ dq +:+ "]") d = Ok found
                  /\ entity_count l = length found)
          table layers.
Proof.
  revert layers; induction table as [|[layer_name layer_color] table IH]; intros layers.
  - simpl. intros [= <-]. constructor.
  - simpl. destruct (query _ d) as [found|e] eqn:Q; [|done]. simpl.
    destruct (layers_info_of d table) as [rest|e]; [|done]. simpl.
    intros [= <-]. constructor; [|by apply IH]. simpl. eauto.
Qed.

Lemma layers_info_of_columns (d : Drawing) (table : list (string * Z))
    (layers : list LayerInfo) :
  layers_info_of d table = Ok layers ->
  map name layers = map fst table /\ map color layers = map snd table.
Proof.
  intros H%layers_info_of_ok.
  induction H as [|row l table rest (Hn & Hc & _) _ [IH1 IH2]]; [done|].
  simpl. by rewrite Hn, Hc, IH1, IH2.
Qed.

(** The listing fails with the error of the first layer whose query
    fails. *)
Lemma layers_info_of_failed (d : Drawing) (table : list (string * Z)) (e : Error) :
  layers_info_of d table = Failed e ->
  exists before row after,
    table = (before ++ row :: after)%list
    /\ query ("*[layer==" +:+ dq +:+ fst row +:+ dq +:+ "]") d = Failed e
    /\ Forall (fun r => exists found,
                 query ("*[layer==" +:+ dq +:+ fst r +:+ dq +:+ "]") d = Ok found) before.
Proof.
  induction table as [|[layer_name layer_color] table IH]; [done|].
  simpl. destruct (query _ d) as [found|e'] eqn:Q.
  - simpl. destruct (layers_info_of d table) as [rest|e'] eqn:L; [done|].
    simpl. intros [= ->]. destruct (IH eq_refl) as (before & row & after & -> & Hq & Hb).
    exists ((layer_name, layer_color) :: before), row, after.
    split; [done|]. split; [done|]. constructor; [|done]. simpl. eauto.
  - simpl. intros [= ->]. exists [], (layer_name, layer_color), table.
    split; [done|]. split; [done | constructor].
Qed.

(** ... and it does fail when the query of a layer fails and those of
    the layers before it do not. *)
Lemma layers_info_of_first_failure (d : Drawing) (before after : list (string * Z))
    (row : string * Z) (e : Error) :
  Forall (fun r => exists found,
            query ("*[layer==" +:+ dq +:+ fst r +:+ dq +:+ "]") d = Ok found) before ->
  query ("*[layer==" +:+ dq +:+ fst row +:+ dq +:+ "]") d = Failed e ->
  layers_info_of d (before ++ row :: after) = Failed e.
Proof.
  intros Hb Hq. induction Hb as [|[layer_name layer_color] before [found Hf] _ IH].
  - destruct row as [layer_name layer_color]. simpl in *. by rewrite Hq.
  - simpl in *. by rewrite Hf, IH.
Qed.

Lemma export_dxf_eq w o :
  current_doc w = Some o ->
  export_dxf w
  = let export_name := Py.replace ".dxf" "_edited.dxf" (current_filename w) in
    let export_path := joinpath (temp_dir w) export_name in
    match saveas (doc o) with
    | Ok data =>
        (Return (FileResponse export_path export_name "application/dxf"),
         set_files (<[export_path := data]> (files w)) (add_event (EvWriteFile export_path) w))
    | Failed e => (Throw (Exc e), w)
    end.
Proof.
  intros H. unfold export_dxf, write_file.
  cbv [bind try_except gets modify ret raise call]. rewrite H. simpl.
  by destruct (saveas (doc o)).
Qed.

Lemma export_pdf_eq w o :
  current_doc w = Some o ->
  export_pdf w
  = let w1 := add_event (EvRender (doc_id o)) w in
    match render pdf_config auto_page (doc o) with
    | Failed e => (Throw (Exc e), w1)
    | Ok svg =>
        let svg_path := joinpath (temp_dir w) "temp.svg" in
        let w2 := set_files (<[svg_path := svg]> (files w)) (add_event (EvWriteFile svg_path) w1) in
        match svg2rlg svg with
        | Failed e => (Throw (Exc e), w2)
        | Ok None =>
            (Throw (Exc (HTTPException 500 "Failed to parse SVG for PDF export")), w2)
        | Ok (Some drawing) =>
            let export_name := Py.replace ".dxf" ".pdf" (current_filename w) in
            let export_path := joinpath (temp_dir w) export_name in
            match drawToFile drawing with
            | Failed e => (Throw (Exc e), w2)
            | Ok data =>
                (Return (FileResponse export_path export_name "application/pdf"),
                 set_files (<[export_path := data]> (files w2))
                   (add_event (EvWriteFile export_path) w2))
            end
        end
    end.
Proof.
  intros H. unfold export_pdf, write_file.
  cbv [bind try_except gets modify ret raise call]. rewrite H. simpl.
  destruct (render pdf_config auto_page (doc o)) as [svg|e]; [|done]. simpl.
  destruct (svg2rlg svg) as [[drawing|]|e]; [|done|done]. simpl.
  by destruct (drawToFile drawing).
Qed.

Lemma insert_keeps (fs : gmap string string) (p path data : string) :
  is_Some (fs !! path) -> is_Some (<[p := data]> fs !! path).
Proof. intros H. rewrite lookup_insert_is_Some. destruct (decide (p = path)); auto. Qed.

Lemma upload_finish_keeps_files file data w path :
  is_Some (files w !! path) -> is_Some (files (snd (upload_finish file data w)) !! path).
Proof.
  intros Hp. destruct (upload_finish_world file data w) as [-> | [-> | [d ->]]];
    [done | |]; simpl; by apply insert_keeps.
Qed.

(** No handler takes a file away; executed code may. *)
Lemma handle_keeps_files req w path :
  of_executed (keeps_file path) (Serve req) w ->
  is_Some (files w !! path) -> is_Some (files (snd (handle req w)) !! path).
Proof.
  intros Hk Hp. destruct req as [|file| | |request| |]; simpl.
  - by rewrite serve_frontend_world.
  - rewrite upload_dxf_eq. destruct (Py.endswith _ _); [|done].
    by apply upload_finish_keeps_files.
  - destruct (current_doc w) as [o|] eqn:E.
    + by rewrite (get_svg_eq _ _ E).
    + unfold get_svg. cbv [bind gets]. by rewrite E.
  - destruct (current_doc w) as [o|] eqn:E.
    + by rewrite (get_layers_eq _ _ E).
    + unfold get_layers. cbv [bind gets]. by rewrite E.
  - unfold of_executed in Hk. destruct (current_doc w) as [o|] eqn:E.
    + pose proof (chat_world_cases request w o E) as Hc.
      destruct (generated request o) as [source|].
      * destruct Hc as [ev ->]. rewrite after_exec_files. by apply Hk.
      * by destruct Hc as [-> | [ev ->]].
    + by rewrite (chat_unloaded _ _ E).
  - destruct (current_doc w) as [o|] eqn:E.
    + rewrite (export_dxf_eq _ _ E). cbv zeta.
      destruct (saveas (doc o)); [|done]. simpl. by apply insert_keeps.
    + unfold export_dxf. cbv [bind gets]. by rewrite E.
  - destruct (current_doc w) as [o|] eqn:E.
    + rewrite (export_pdf_eq _ _ E). cbv zeta.
      destruct (render _ _ _) as [svg|e]; [|done].
      destruct (svg2rlg svg) as [[drawing|]|e]; simpl; try by apply insert_keeps.
      destruct (drawToFile drawing); simpl; by repeat apply insert_keeps.
    + unfold export_pdf. cbv [bind gets]. by rewrite E.
Qed.

Lemma step_keeps_files s w path :
  of_executed (keeps_file path) s w ->
  is_Some (files w !! path) -> is_Some (files (step s w) !! path).
Proof.
  intros Hk Hp. destruct s as [req|file|file]; simpl.
  - by apply handle_keeps_files.
  - rewrite upload_begin_eq. by destruct (Py.endswith _ _).
  - rewrite upload_begin_eq. destruct (Py.endswith _ _); [|done]. cbn [fst].
    by apply upload_finish_keeps_files.
Qed.

Lemma run_keeps_files steps w path :
  all_along (keeps_file path) steps w ->
  is_Some (files w !! path) -> is_Some (files (run steps w) !! path).
Proof.
  revert w; induction steps as [|s steps IH]; intros w Hk Hp; [done|].
  destruct Hk as [Hs Hk]. simpl. apply IH; [done|]. by apply step_keeps_files.
Qed.


Lemma join_elem sep (parts : list string) x :
  In x parts -> exists a b, Py.join sep parts = a +:+ x +:+ b.
Proof.
  induction parts as [|y parts IH]; [done|]. intros [-> | Hin].
  - destruct parts as [|z parts].
    + exists EmptyString, EmptyString. simpl. by rewrite app_empty_r.
    + exists EmptyString. eexists. reflexivity.
  - destruct (IH Hin) as (a & b & Hj). destruct parts as [|z parts]; [done|].
    exists (y +:+ sep +:+ a), b.
    change (Py.join sep (y :: z :: parts)) with (y +:+ sep +:+ Py.join sep (z :: parts)).
    by rewrite Hj, !app_assoc_str.
Qed.

End MoreHandlerFacts.

(** ** The claims *)

(** C8: POST /api/upload turns away every file whose name, in lower case,
    does not end in [.dxf]: the answer is an HTTPException with status 400
    and detail "File must be a DXF file", and the world is as it was -
    the content has not been read, nothing has been written, the document
    handle and the file name are unchanged. *)
Theorem upload_rejects_other_names `{Ext : External} (file : UploadFile) (w : World) :
  Py.endswith ".dxf" (Py.lower (filename file)) = false ->
  fst (upload_dxf file w) = Throw (Exc (HTTPException 400 "File must be a DXF file"))
  /\ http_status (fst (upload_dxf file w)) = Some 400%Z
  /\ snd (upload_dxf file w) = w.
Proof. intros H. rewrite upload_dxf_eq, H. done. Qed.

Lemma upload_rejects_other_names_witness :
  Py.endswith ".dxf" (Py.lower (filename Demo.notes)) = false
  /\ fst (upload_dxf Demo.notes Demo.with_plan)
     = Throw (Exc (HTTPException 400 "File must be a DXF file"))
  /\ snd (upload_dxf Demo.notes Demo.with_plan) = Demo.with_plan.
Proof.
  split; [reflexivity|].
  destruct (upload_rejects_other_names Demo.notes Demo.with_plan eq_refl) as (H1 & _ & H3).
  exact (conj H1 H3).
Defined.

(** C10: with no document loaded, GET /api/svg, GET /api/layers,
    GET /api/export/dxf and GET /api/export/pdf fail with status 404 and
    POST /api/chat fails with status 400; the world, and with it the
    document handle and the file name, is unchanged. *)
Theorem nothing_loaded `{Ext : External} (w : World) (request : ChatRequest) :
  current_doc w = None ->
  get_svg w = (Throw (Exc (HTTPException 404 "No DXF file loaded")), w)
  /\ get_layers w = (Throw (Exc (HTTPException 404 "No DXF file loaded")), w)
  /\ export_dxf w = (Throw (Exc (HTTPException 404 "No DXF file loaded")), w)
  /\ export_pdf w = (Throw (Exc (HTTPException 404 "No DXF file loaded")), w)
  /\ chat request w
     = (Throw (Exc (HTTPException 400 "No DXF file loaded. Please upload a file first.")), w)
  /\ http_status (fst (get_svg w)) = Some 404%Z
  /\ http_status (fst (get_layers w)) = Some 404%Z
  /\ http_status (fst (export_dxf w)) = Some 404%Z
  /\ http_status (fst (export_pdf w)) = Some 404%Z
  /\ http_status (fst (chat request w)) = Some 400%Z.
Proof.
  intros H. rewrite (chat_unloaded _ _ H).
  unfold get_svg, get_layers, export_dxf, export_pdf. cbv [bind gets]. rewrite H.
  done.
Qed.

Lemma nothing_loaded_witness :
  current_doc Demo.fresh = None
  /\ fst (get_svg Demo.fresh) = Throw (Exc (HTTPException 404 "No DXF file loaded"))
  /\ http_status (fst (chat {| message := "remove the doors" |} Demo.fresh)) = Some 400%Z.
Proof.
  split; [reflexivity|].
  destruct (nothing_loaded Demo.fresh {| message := "remove the doors" |} eq_refl)
    as (H1 & _ & _ & _ & _ & _ & _ & _ & _ & H10).
  split; [by rewrite H1 | exact H10].
Defined.

(** C9: when the snippet runs to its end, the result of
    [execute_ezdxf_code] is fixed by the number of modelspace entities
    before and after: "N element(s) removed" when N fewer, "N element(s)
    added" when N more, "Changes applied successfully" when the number is
    the same - so also when as many were added as removed, or when only
    attributes changed. *)
Theorem execute_reports_count_change `{Ext : External}
    (source : string) (o : DocObject) (w : World) :
  outcome (py_exec source exec_globals o (reach w)) = Completed ->
  let before := length (modelspace (doc o)) in
  let after := length (modelspace (left_doc (py_exec source exec_globals o (reach w)))) in
  fst (execute_ezdxf_code source o w) = Return (count_message before after)
  /\ (forall n, (0 < n)%nat -> (after + n = before)%nat ->
        count_message before after = Py.str_int (Z.of_nat n) +:+ " element(s) removed")
  /\ (forall n, (0 < n)%nat -> (before + n = after)%nat ->
        count_message before after = Py.str_int (Z.of_nat n) +:+ " element(s) added")
  /\ (after = before -> count_message before after = "Changes applied successfully").
Proof.
  intros H before after. split; [by apply execute_completed|].
  split; [by apply count_message_removed|].
  split; [by apply count_message_added|].
  intros ->. apply count_message_same.
Qed.

Lemma execute_reports_count_change_witness :
  let o := {| doc_id := O; doc := ["WALLS"; "WALLS"; "0"] : @Drawing Demo.ext |} in
  outcome (py_exec Demo.delete_first exec_globals o (reach Demo.fresh)) = Completed
  /\ fst (execute_ezdxf_code Demo.delete_first o Demo.fresh)
     = Return "1 element(s) removed".
Proof.
  intros o. split; [reflexivity|].
  destruct (execute_reports_count_change Demo.delete_first o Demo.fresh eq_refl)
    as (H1 & H2 & _).
  rewrite H1, (H2 1%nat); [reflexivity | simpl; lia | reflexivity].
Defined.






(** C3, as the code has it.  Among the statements of the handlers only
    POST /api/upload assigns the global document handle: an upload whose
    bytes are stored and loaded makes [current_doc] a new object, on the
    first upload and on every later one, and writes the bytes to a file.
    Every request other than an upload or a chat leaves the document and
    the file name as they are.  POST /api/chat has no assignment of its
    own: when it executes no code, document, file name and files stay;
    when it executes code, the handle, the file name and the files
    afterwards are the ones this code left - it can assign the globals and
    write or remove files - and when the code left the globals alone,
    [current_doc] is the object it was, with the content the code left in
    it.  GET /api/svg and GET /api/layers change neither document nor file
    name nor files.  The handle is not restored from the disk: when the
    module is loaded it is [None] whatever files there are.  Files are
    written, though: by an upload the bytes of the file, by the DXF export
    the document as it is, by the PDF export the SVG and the PDF. *)
Theorem only_upload_assigns_the_handle `{Ext : External} (w : World) :
  reachable w ->
  (forall file d,
     Py.endswith ".dxf" (Py.lower (filename file)) = true ->
     write_bytes (files w) (joinpath (temp_dir w) (filename file)) (content file) = Ok tt ->
     readfile (content file) = Ok d ->
     current_doc (snd (upload_dxf file w)) = Some {| doc_id := next_id w; doc := d |}
     /\ current_filename (snd (upload_dxf file w)) = filename file
     /\ document_handle (snd (upload_dxf file w)) <> document_handle w
     /\ files (snd (upload_dxf file w))
        = <[joinpath (temp_dir w) (filename file) := content file]> (files w))
  /\ (forall req, (forall file, req <> PostUpload file) ->
        (forall request, req <> PostChat request) ->
        current_doc (snd (handle req w)) = current_doc w
        /\ current_filename (snd (handle req w)) = current_filename w)
  /\ (forall request o, current_doc w = Some o ->
        match generated request o with
        | None =>
            current_doc (snd (chat request w)) = Some o
            /\ current_filename (snd (chat request w)) = current_filename w
            /\ files (snd (chat request w)) = files w
        | Some source =>
            let ran := py_exec source exec_globals o (reach w) in
            document_handle (snd (chat request w))
            = option_map doc_id (r_current_doc (left_reach ran))
            /\ current_filename (snd (chat request w)) = r_filename (left_reach ran)
            /\ files (snd (chat request w)) = r_files (left_reach ran)
            /\ (keeps_globals source o w ->
                  current_doc (snd (chat request w))
                  = Some {| doc_id := doc_id o; doc := left_doc ran |}
                  /\ current_filename (snd (chat request w)) = current_filename w)
        end)
  /\ (forall request, current_doc w = None -> snd (chat request w) = w)
  /\ (current_doc (snd (get_svg w)) = current_doc w
      /\ current_filename (snd (get_svg w)) = current_filename w)
  /\ (current_doc (snd (get_layers w)) = current_doc w
      /\ current_filename (snd (get_layers w)) = current_filename w)
  /\ (forall tmp disk,
        current_doc (startup tmp disk) = None
        /\ current_filename (startup tmp disk) = EmptyString)
  /\ persists_nothing GetSvg w
  /\ persists_nothing GetLayers w
  /\ (forall o data,
        current_doc w = Some o -> saveas (doc o) = Ok data ->
        files (snd (export_dxf w))
        = <[joinpath (temp_dir w) (Py.replace ".dxf" "_edited.dxf" (current_filename w))
            := data]> (files w))
  /\ (forall o svg drawing data,
        current_doc w = Some o ->
        render pdf_config auto_page (doc o) = Ok svg ->
        svg2rlg svg = Ok (Some drawing) ->
        drawToFile drawing = Ok data ->
        files (snd (export_pdf w))
        = <[joinpath (temp_dir w) (Py.replace ".dxf" ".pdf" (current_filename w)) := data]>
            (<[joinpath (temp_dir w) "temp.svg" := svg]> (files w))).
Proof.
  intros Hw%reachable_numbered.
  assert (get_svg_same : snd (get_svg w) = w \/ exists ev, snd (get_svg w) = add_event ev w).
  { destruct (current_doc w) as [o|] eqn:E.
    - right. exists (EvRender (doc_id o)). by rewrite (get_svg_eq _ _ E).
    - left. unfold get_svg. cbv [bind gets]. by rewrite E. }
  assert (get_layers_same : snd (get_layers w) = w).
  { destruct (current_doc w) as [o|] eqn:E.
    - by rewrite (get_layers_eq _ _ E).
    - unfold get_layers. cbv [bind gets]. by rewrite E. }
  repeat apply conj.
  - intros file d Hname Hst Hd. rewrite (upload_dxf_loaded _ _ _ Hname Hst Hd). cbn [snd].
    split; [done|]. split; [done|]. split; [|done].
    unfold document_handle at 1. simpl. intros E. symmetry in E.
    apply Hw in E. lia.
  - intros req Hreq Hchat. by destruct (handle_frame req w Hreq Hchat) as (-> & -> & _).
  - intros request o Ho. pose proof (chat_world_cases request w o Ho) as Hc.
    destruct (generated request o) as [source|].
    + destruct Hc as [ev ->]. cbv zeta. split; [|split; [done|split; [done|]]].
      * unfold document_handle, after_exec. simpl.
        destruct (r_current_doc _) as [cur|]; [|done].
        by destruct (Nat.eqb_spec (doc_id cur) (doc_id o)) as [<-|].
      * intros Hk.
        by destruct (after_exec_kept source o (add_event ev w) Ho Hk) as (H1 & H2 & _).
    + by destruct Hc as [-> | [ev ->]].
  - intros request Hn. by rewrite (chat_unloaded _ _ Hn).
  - by destruct get_svg_same as [-> | [ev ->]].
  - by destruct get_svg_same as [-> | [ev ->]].
  - by rewrite get_layers_same.
  - by rewrite get_layers_same.
  - done.
  - unfold persists_nothing. simpl. by destruct get_svg_same as [-> | [ev ->]].
  - unfold persists_nothing. simpl. by rewrite get_layers_same.
  - intros o data Ho Hs. by apply (export_dxf_files w o).
  - intros o svg drawing data Ho Hr Hs Hd.
    rewrite (export_pdf_eq _ _ Ho). cbv zeta. by rewrite Hr, Hs, Hd.
Qed.

Lemma only_upload_assigns_the_handle_witness :
  reachable Demo.with_plan
  /\ document_handle Demo.with_plan = Some O
  /\ document_handle (snd (upload_dxf Demo.sketch Demo.with_plan)) = Some 1%nat
  /\ current_doc (snd (chat {| message := Demo.reply "Add a line." Demo.add_line |}
                         Demo.with_plan))
     = Some {| doc_id := O; doc := ["WALLS"; "WALLS"; "0"; "0"] : @Drawing Demo.ext |}.
Proof.
  assert (reachable Demo.with_plan) as R.
  { unfold Demo.with_plan. apply reachable_step, reachable_startup. }
  split; [exact R|]. split; [reflexivity|].
  destruct (only_upload_assigns_the_handle Demo.with_plan R) as (H1 & _ & H3 & _).
  split.
  - destruct (H1 Demo.sketch ["0"] eq_refl eq_refl eq_refl) as (H & _).
    unfold document_handle. rewrite H. reflexivity.
  - pose proof (H3 {| message := Demo.reply "Add a line." Demo.add_line |}
                  {| doc_id := O; doc := ["WALLS"; "WALLS"; "0"] : @Drawing Demo.ext |}
                  eq_refl) as H.
    assert (generated {| message := Demo.reply "Add a line." Demo.add_line |}
              {| doc_id := O; doc := ["WALLS"; "WALLS"; "0"] : @Drawing Demo.ext |}
            = Some Demo.add_line) as Hg by (vm_compute; reflexivity).
    rewrite Hg in H. destruct H as (_ & _ & _ & H).
    assert (keeps_globals Demo.add_line
              {| doc_id := O; doc := ["WALLS"; "WALLS"; "0"] : @Drawing Demo.ext |}
              Demo.with_plan) as Hk by (repeat split).
    destruct (H Hk) as [H' _]. exact H'.
Defined.

(** C3 as stated fails in two places.  The code that POST /api/chat
    executes can assign the handle: after [app.main.current_doc = None]
    the server has no document.  And the document is written to the disk:
    GET /api/export/dxf writes it, as the chat has changed it, to a file
    in the temporary directory (and the upload had written the bytes it
    was given); executed code can write files as well. *)
Lemma handle_is_assigned_and_document_written :
  let forgetful := {| message := Demo.reply "Forget it." Demo.forget |} in
  let jotting := {| message := Demo.reply "Take a note." Demo.jot |} in
  reachable Demo.with_plan
  /\ document_handle Demo.with_plan = Some O
  /\ (exists r, fst (chat forgetful Demo.with_plan) = Return (ChatResult r)
                /\ code r = Demo.forget /\ executed r = true)
  /\ document_handle (snd (chat forgetful Demo.with_plan)) = None
  /\ current_filename (snd (chat forgetful Demo.with_plan)) = "Plan.DXF"
  /\ reachable Demo.edited
  /\ option_map doc (current_doc Demo.edited) = Some ["0"; "0"]
  /\ files Demo.edited !! "/tmp/t/sketch.dxf" = Some "DXF:0"
  /\ files Demo.edited !! "/tmp/t/sketch_edited.dxf" = None
  /\ files (snd (export_dxf Demo.edited)) !! "/tmp/t/sketch_edited.dxf" = Some "DXF:0,0"
  /\ ~ persists_nothing GetExportDxf Demo.edited
  /\ ~ persists_nothing (PostUpload Demo.sketch) Demo.fresh
  /\ files (snd (chat jotting Demo.with_plan)) !! "/tmp/t/note.txt" = Some "hi"
  /\ ~ persists_nothing (PostChat jotting) Demo.with_plan.
Proof.
  intros forgetful jotting.
  assert (files (snd (export_dxf Demo.edited)) !! "/tmp/t/sketch_edited.dxf" = Some "DXF:0,0")
    as He by (vm_compute; reflexivity).
  assert (files Demo.edited !! "/tmp/t/sketch_edited.dxf" = None) as Hn
    by (vm_compute; reflexivity).
  assert (files (snd (chat jotting Demo.with_plan)) !! "/tmp/t/note.txt" = Some "hi") as Hj
    by (vm_compute; reflexivity).
  split; [unfold Demo.with_plan; apply reachable_step, reachable_startup|].
  split; [reflexivity|].
  split; [eexists; split; [vm_compute; reflexivity | split; reflexivity]|].
  split; [vm_compute; reflexivity|]. split; [vm_compute; reflexivity|].
  split; [apply reachable_run, reachable_startup|].
  split; [vm_compute; reflexivity|]. split; [vm_compute; reflexivity|].
  split; [exact Hn|]. split; [exact He|]. split; [|split; [|split; [exact Hj|]]].
  - unfold persists_nothing. simpl. intros H. rewrite H in He. congruence.
  - unfold persists_nothing. simpl. intros H.
    assert (files (snd (upload_dxf Demo.sketch Demo.fresh)) !! "/tmp/t/sketch.dxf"
            = Some "DXF:0") as Hu by (vm_compute; reflexivity).
    rewrite H in Hu. vm_compute in Hu. discriminate.
  - unfold persists_nothing. simpl. intros H. rewrite H in Hj.
    vm_compute in Hj. discriminate.
Qed.






(** C1, as the code has it: [execute_ezdxf_code] hands every code string
    to [exec] as it is, with [doc] and [ezdxf] and nothing else bound in
    the globals.  If the execution raises an exception derived from
    [Exception] of which [str] can be taken, [execute_ezdxf_code] raises a
    RuntimeError whose message holds the original message, and
    POST /api/chat answers with a ChatResponse, [executed] and
    [svg_updated] false, instead of an error status.  If [str] of the
    exception raises in its turn, what it raises leaves
    [execute_ezdxf_code] in the place of the RuntimeError, and the
    [except] clauses of POST /api/chat deal with that: an exception other
    than a RuntimeError gives status 500.  An exception that is not
    derived from [Exception] is caught by neither function and leaves the
    handler. *)
Theorem exec_exceptions_are_reported `{Ext : External}
    (source : string) (o : DocObject) (w : World) :
  let ran := py_exec source exec_globals o (reach w) in
  exec_globals = ["doc"; "ezdxf"]
  /\ log (snd (execute_ezdxf_code source o w))
     = (log w ++ [EvExec source ["doc"; "ezdxf"] (doc_id o)])%list
  /\ (forall e traceback shown,
        outcome ran = Raising e traceback ->
        is_Exception e = true ->
        str_raised e = Return shown ->
        let msg := "Code execution failed: " +:+ shown +:+ nl +:+ traceback in
        fst (execute_ezdxf_code source o w) = Throw (Exc (RuntimeError msg))
        /\ Py.contains shown msg = true
        /\ forall request,
             current_doc w = Some o -> generated request o = Some source ->
             fst (chat request w)
             = Return (ChatResult {| response := "Error executing code: " +:+ msg;
                                     code := source;
                                     executed := false;
                                     result := msg;
                                     svg_updated := false |})
             /\ http_status (fst (chat request w)) = Some 200%Z)
  /\ (forall e traceback inner,
        outcome ran = Raising e traceback ->
        str_raised e = Throw inner ->
        fst (execute_ezdxf_code source o w) = Throw inner
        /\ forall request,
             current_doc w = Some o -> generated request o = Some source ->
             fst (chat request w) = fst (chat_except (Some source) inner w)
             /\ forall e', inner = Exc e' -> (forall m, e' <> RuntimeError m) ->
                  fst (chat request w)
                  = Throw (Exc (HTTPException 500
                             ("Chat processing failed: " +:+ str_error e')))
                  /\ http_status (fst (chat request w)) = Some 500%Z)
  /\ (forall e traceback,
        outcome ran = Raising e traceback ->
        is_Exception e = false ->
        fst (execute_ezdxf_code source o w) = Throw e
        /\ forall request,
             current_doc w = Some o -> generated request o = Some source ->
             fst (chat request w) = Throw e
             /\ http_status (fst (chat request w)) = None).
Proof.
  intros ran. split; [done|]. rewrite execute_eq. fold ran. cbn [fst snd].
  split; [by rewrite after_exec_log|]. split; [|split].
  - intros e tb shown Hx He Hs. rewrite Hx, He, Hs.
    split; [done|]. split; [apply contains_app|].
    intros request Ho Hg. destruct (chat_ran request w o source Ho Hg) as [expl Hc].
    fold ran in Hc. rewrite Hx, He, Hs in Hc. by rewrite Hc.
  - intros e tb inner Hx Hs.
    assert (is_Exception e = true) as He by by destruct e.
    rewrite Hx, He, Hs. split; [done|].
    intros request Ho Hg. destruct (chat_ran request w o source Ho Hg) as [expl Hc].
    fold ran in Hc. rewrite Hx, He, Hs in Hc. split; [done|].
    intros e' -> Hm. rewrite Hc.
    destruct e' as [status detail | m | cls m]; try done. by destruct (Hm m).
  - intros e tb Hx He. rewrite Hx, He. split; [done|].
    intros request Ho Hg. destruct (chat_ran request w o source Ho Hg) as [expl Hc].
    fold ran in Hc. rewrite Hx, He in Hc. rewrite Hc. split; [done|].
    by destruct e.
Qed.

Lemma exec_exceptions_are_reported_witness :
  let o := {| doc_id := O; doc := ["WALLS"; "WALLS"; "0"] : @Drawing Demo.ext |} in
  let msg := "Code execution failed: division by zero" +:+ nl
             +:+ "ZeroDivisionError: division by zero" in
  fst (chat {| message := Demo.reply "Divide." Demo.divide |} Demo.with_plan)
  = Return (ChatResult {| response := "Error executing code: " +:+ msg;
                          code := Demo.divide;
                          executed := false;
                          result := msg;
                          svg_updated := false |})
  /\ fst (execute_ezdxf_code Demo.mute o Demo.with_plan)
     = Throw (Exc (OtherError "ValueError" "no"))
  /\ fst (chat {| message := Demo.reply "Be silent." Demo.mute |} Demo.with_plan)
     = Throw (Exc (HTTPException 500 "Chat processing failed: no"))
  /\ fst (chat {| message := Demo.reply "Stop." Demo.leave |} Demo.with_plan)
     = Throw (Exit "SystemExit" "1").
Proof.
  intros o msg.
  destruct (exec_exceptions_are_reported (Ext := Demo.ext) Demo.divide o Demo.with_plan)
    as (_ & _ & H & _).
  destruct (H (Exc (OtherError "ZeroDivisionError" "division by zero"))
              "ZeroDivisionError: division by zero" "division by zero"
              eq_refl eq_refl eq_refl) as (_ & _ & Hc).
  destruct (Hc {| message := Demo.reply "Divide." Demo.divide |} eq_refl) as [H1 _];
    [vm_compute; reflexivity|].
  split; [exact H1|].
  destruct (exec_exceptions_are_reported (Ext := Demo.ext) Demo.mute o Demo.with_plan)
    as (_ & _ & _ & Hm & _).
  destruct (Hm (Unprintable "Bad" (Exc (OtherError "ValueError" "no")))
               "Bad: <exception str() failed>" (Exc (OtherError "ValueError" "no"))
               eq_refl eq_refl) as (H2 & Hc2).
  split; [exact H2|].
  destruct (Hc2 {| message := Demo.reply "Be silent." Demo.mute |} eq_refl) as [_ H3];
    [vm_compute; reflexivity|].
  destruct (H3 (OtherError "ValueError" "no") eq_refl) as [H4 _]; [intros m; discriminate|].
  split; [exact H4|].
  destruct (exec_exceptions_are_reported (Ext := Demo.ext) Demo.leave o Demo.with_plan)
    as (_ & _ & _ & _ & Hl).
  destruct (Hl (Exit "SystemExit" "1") EmptyString eq_refl eq_refl) as (_ & Hc3).
  destruct (Hc3 {| message := Demo.reply "Stop." Demo.leave |} eq_refl) as [H5 _];
    [vm_compute; reflexivity|].
  exact H5.
Defined.

(** C1 as stated fails for an exception that is not derived from
    [Exception]: the snippet [raise SystemExit(1)] raises, and neither is
    a RuntimeError raised nor a ChatResponse returned - the exception
    leaves the handler. *)
Lemma system_exit_is_not_reported :
  let o := {| doc_id := O; doc := ["WALLS"; "WALLS"; "0"] : @Drawing Demo.ext |} in
  let request := {| message := Demo.reply "Stop." Demo.leave |} in
  current_doc Demo.with_plan = Some o
  /\ fst (generate_ezdxf_code (message request) [] Demo.with_plan)
     = Return ("Stop.", "raise SystemExit(1)")
  /\ outcome (py_exec "raise SystemExit(1)" exec_globals o (reach Demo.with_plan))
     = Raising (Exit "SystemExit" "1") EmptyString
  /\ fst (execute_ezdxf_code "raise SystemExit(1)" o Demo.with_plan)
     = Throw (Exit "SystemExit" "1")
  /\ (~ exists msg, fst (execute_ezdxf_code "raise SystemExit(1)" o Demo.with_plan)
                    = Throw (Exc (RuntimeError msg)))
  /\ fst (chat request Demo.with_plan) = Throw (Exit "SystemExit" "1")
  /\ (~ exists r, fst (chat request Demo.with_plan) = Return (ChatResult r)).
Proof.
  intros o request.
  assert (fst (execute_ezdxf_code "raise SystemExit(1)" o Demo.with_plan)
          = Throw (Exit "SystemExit" "1")) as Hx by (vm_compute; reflexivity).
  assert (fst (chat request Demo.with_plan) = Throw (Exit "SystemExit" "1")) as Hc
    by (vm_compute; reflexivity).
  split; [vm_compute; reflexivity|]. split; [vm_compute; reflexivity|].
  split; [vm_compute; reflexivity|]. split; [exact Hx|].
  split; [intros [msg H]; rewrite Hx in H; discriminate|].
  split; [exact Hc|]. intros [r H]. rewrite Hc in H. discriminate.
Qed.

(** C2, as the code has it.  Let the model answer [text].
    With "EXPLANATION:" in it: when [text] is [pre], "CODE:", [mid], a
    python fence, [body], a closing fence and [rest] - this being the first
    "CODE:", with no further "CODE:" before the end of the closing fence,
    the first python fence behind it and the first fence marker behind
    that, with no python fence beginning inside the closing marker - the
    explanation is [pre] without "EXPLANATION:", stripped, and the code is
    [body], stripped.
    Without "EXPLANATION:": the explanation is "Executing requested
    changes."; the code is the stripped block of the first python fence if
    there is one, else that of the first fence if there is one, else the
    empty string. *)
Theorem generate_splits_the_reply `{Ext : External}
    (user_message : string) (layers_info : list LayerInfo) (w : World) (text : string) :
  model_reply (Prompt.system_prompt layers_info) user_message = Ok text ->
  (Py.contains "EXPLANATION:" text = true ->
   forall pre mid body rest,
     text = pre +:+ "CODE:" +:+ mid +:+ "```python" +:+ body +:+ "```" +:+ rest ->
     Py.find "CODE:" text = Some (Py.len pre) ->
     (forall i, Py.find "CODE:" (mid +:+ "```python" +:+ body +:+ "```" +:+ rest) = Some i ->
                (Py.len (mid +:+ "```python" +:+ body +:+ "```") <= i)%nat) ->
     Py.find "```python" (mid +:+ "```python" +:+ body +:+ "```" +:+ rest)
       = Some (Py.len mid) ->
     Py.find "```" (body +:+ "```" +:+ rest) = Some (Py.len body) ->
     (forall i, Py.find "```python" (body +:+ "```" +:+ rest) = Some i ->
                i = Py.len body \/ (Py.len body + 3 <= i)%nat) ->
     fst (generate_ezdxf_code user_message layers_info w)
     = Return (Py.strip (Py.replace "EXPLANATION:" EmptyString pre), Py.strip body))
  /\ (Py.contains "EXPLANATION:" text = false ->
      exists source,
        fst (generate_ezdxf_code user_message layers_info w)
        = Return ("Executing requested changes.", source)
        /\ (forall pre body rest,
              text = pre +:+ "```python" +:+ body +:+ "```" +:+ rest ->
              Py.find "```python" text = Some (Py.len pre) ->
              Py.find "```" (body +:+ "```" +:+ rest) = Some (Py.len body) ->
              (forall i, Py.find "```python" (body +:+ "```" +:+ rest) = Some i ->
                         i = Py.len body \/ (Py.len body + 3 <= i)%nat) ->
              source = Py.strip body)
        /\ (Py.contains "```python" text = false ->
            forall pre body rest,
              text = pre +:+ "```" +:+ body +:+ "```" +:+ rest ->
              Py.find "```" text = Some (Py.len pre) ->
              Py.find "```" (body +:+ "```" +:+ rest) = Some (Py.len body) ->
              source = Py.strip body)
        /\ (Py.contains "```" text = false -> source = EmptyString)).
Proof.
  intros Hm. rewrite generate_eq, Hm. cbn [fst]. split.
  - intros HE pre mid body rest Ht HC Hnext Hpy Hclose Hover.
    by rewrite (parse_response_format text pre mid body rest).
  - intros HE. unfold parse_response. rewrite HE.
    destruct (extract_code_total EmptyString text) as [source Hs].
    exists source. rewrite Hs. simpl. split; [done|]. split; [|split].
    + intros pre body rest -> H1 H2 H3.
      rewrite extract_code_python in Hs by done. congruence.
    + intros Hno pre body rest -> H1 H2.
      rewrite extract_code_plain in Hs by done. congruence.
    + intros Hno. rewrite extract_code_none in Hs by done. congruence.
Qed.

Lemma generate_splits_the_reply_witness :
  fst (generate_ezdxf_code (Demo.reply "Add a line." Demo.add_line) [] Demo.fresh)
  = Return ("Add a line.", Demo.add_line)
  /\ exists source,
       fst (generate_ezdxf_code Demo.two_fences [] Demo.fresh)
       = Return ("Executing requested changes.", source)
       /\ source = "msp.delete_entity(door)".
Proof.
  split.
  - destruct (generate_splits_the_reply (Ext := Demo.ext)
                (Demo.reply "Add a line." Demo.add_line) [] Demo.fresh
                (Demo.reply "Add a line." Demo.add_line) eq_refl) as [H _].
    apply (H eq_refl ("EXPLANATION: Add a line." +:+ nl) nl (nl +:+ Demo.add_line +:+ nl)
             EmptyString).
    + reflexivity.
    + reflexivity.
    + intros i Hi. vm_compute in Hi. discriminate.
    + reflexivity.
    + reflexivity.
    + intros i Hi. vm_compute in Hi. discriminate.
  - destruct (generate_splits_the_reply (Ext := Demo.ext)
                Demo.two_fences [] Demo.fresh Demo.two_fences eq_refl) as [_ H].
    destruct (H eq_refl) as (source & H1 & H2 & _).
    exists source. split; [exact H1|].
    apply (H2 ("First the idea:" +:+ nl +:+ "```" +:+ nl +:+ "delete the doors" +:+ nl
               +:+ "```" +:+ nl)
             (nl +:+ "msp.delete_entity(door)" +:+ nl) EmptyString).
    + reflexivity.
    + reflexivity.
    + reflexivity.
    + intros i Hi. vm_compute in Hi. discriminate.
Defined.

(** C2 as stated fails where the reply has no "EXPLANATION:" and a plain
    fence before a python fence: the first code fence holds "delete the
    doors", the code returned is that of the python fence. *)
Lemma python_fence_goes_first :
  Py.contains "EXPLANATION:" Demo.two_fences = false
  /\ first_fence Demo.two_fences = Some (nl +:+ "delete the doors" +:+ nl)
  /\ spec_code_of_first_fence Demo.two_fences = "delete the doors"
  /\ fst (generate_ezdxf_code Demo.two_fences [] Demo.fresh)
     = Return ("Executing requested changes.", "msp.delete_entity(door)")
  /\ fst (generate_ezdxf_code Demo.two_fences [] Demo.fresh)
     <> Return ("Executing requested changes.", spec_code_of_first_fence Demo.two_fences).
Proof.
  split; [vm_compute; reflexivity|]. split; [vm_compute; reflexivity|].
  split; [vm_compute; reflexivity|]. split; [vm_compute; reflexivity|].
  vm_compute. discriminate.
Qed.

(** ** Further properties of the code *)

(** X1: whatever text the model answers with, [generate_ezdxf_code]
    returns an explanation and a code string: none of the indexings
    [parts[0]], [parts[1]], [split(...)[1]], [split(...)[0]] of the parser is
    out of range. *)
Theorem generate_always_returns `{Ext : External}
    (user_message : string) (layers_info : list LayerInfo) (w : World) (text : string) :
  model_reply (Prompt.system_prompt layers_info) user_message = Ok text ->
  exists explanation source,
    parse_response text = Ok (explanation, source)
    /\ fst (generate_ezdxf_code user_message layers_info w) = Return (explanation, source).
Proof.
  intros Hm. destruct (parse_response_total text) as [[explanation source] Hp].
  exists explanation, source. split; [done|]. by rewrite generate_eq, Hm, Hp.
Qed.

Lemma generate_always_returns_witness :
  exists explanation source,
    parse_response "CODE:```python```EXPLANATION:" = Ok (explanation, source)
    /\ fst (generate_ezdxf_code "CODE:```python```EXPLANATION:" [] Demo.fresh)
       = Return (explanation, source).
Proof.
  exact (generate_always_returns (Ext := Demo.ext) "CODE:```python```EXPLANATION:" []
           Demo.fresh "CODE:```python```EXPLANATION:" eq_refl).
Defined.

(** X2: a reply with "EXPLANATION:" but no "CODE:" gives the whole reply,
    without the marker and stripped, as explanation and the empty string
    as code - a fenced block in such a reply is not looked at. *)
Theorem explanation_without_code `{Ext : External}
    (user_message : string) (layers_info : list LayerInfo) (w : World) (text : string) :
  model_reply (Prompt.system_prompt layers_info) user_message = Ok text ->
  Py.contains "EXPLANATION:" text = true ->
  Py.find "CODE:" text = None ->
  fst (generate_ezdxf_code user_message layers_info w)
  = Return (Py.strip (Py.replace "EXPLANATION:" EmptyString text), EmptyString).
Proof.
  intros Hm HE HC. rewrite generate_eq, Hm. cbn [fst].
  unfold parse_response. rewrite HE, item_split_head, HC. simpl and_then.
  by rewrite (split_none _ _ HC).
Qed.

Lemma explanation_without_code_witness :
  let text := "EXPLANATION: I would run" +:+ nl +:+ "```python" +:+ nl
              +:+ "msp.add_line((0, 0), (1, 1))" +:+ nl +:+ "```" in
  fst (generate_ezdxf_code text [] Demo.fresh)
  = Return ("I would run" +:+ nl +:+ "```python" +:+ nl
            +:+ "msp.add_line((0, 0), (1, 1))" +:+ nl +:+ "```", EmptyString).
Proof.
  intros text.
  exact (explanation_without_code (Ext := Demo.ext) text [] Demo.fresh text
           eq_refl eq_refl eq_refl).
Defined.

(** X3: with "EXPLANATION:" in the reply, the code is looked for between
    the first "CODE:" and the next one (or the end); when that part holds no
    fence, the part itself, stripped, is the code. *)
Theorem code_without_fence `{Ext : External}
    (user_message : string) (layers_info : list LayerInfo) (w : World)
    (text pre post : string) :
  model_reply (Prompt.system_prompt layers_info) user_message = Ok text ->
  Py.contains "EXPLANATION:" text = true ->
  text = pre +:+ "CODE:" +:+ post ->
  Py.find "CODE:" text = Some (Py.len pre) ->
  let code_part :=
    match Py.find "CODE:" post with Some j => Py.take j post | None => post end in
  Py.contains "```" code_part = false ->
  fst (generate_ezdxf_code user_message layers_info w)
  = Return (Py.strip (Py.replace "EXPLANATION:" EmptyString pre), Py.strip code_part).
Proof.
  intros Hm HE Ht HC code_part Hno. rewrite generate_eq, Hm. cbn [fst].
  rewrite (parse_response_code_part text pre post HE Ht HC). cbv zeta.
  fold code_part. by rewrite (extract_code_none _ _ Hno).
Qed.

Lemma code_without_fence_witness :
  let text := "EXPLANATION: Add a line." +:+ nl +:+ "CODE:" +:+ nl
              +:+ "msp.add_line((0, 0), (1, 1))  # CODE: A1" in
  fst (generate_ezdxf_code text [] Demo.fresh)
  = Return ("Add a line.", "msp.add_line((0, 0), (1, 1))  #").
Proof.
  intros text.
  exact (code_without_fence (Ext := Demo.ext) text [] Demo.fresh text
           ("EXPLANATION: Add a line." +:+ nl)
           (nl +:+ "msp.add_line((0, 0), (1, 1))  # CODE: A1")
           eq_refl eq_refl eq_refl eq_refl eq_refl).
Defined.

(** X4: with "EXPLANATION:" in the reply and, between the first "CODE:"
    and the next one, a fence without the python tag (and no python fence),
    the code is the block of the first fence there, stripped. *)
Theorem code_in_plain_fence `{Ext : External}
    (user_message : string) (layers_info : list LayerInfo) (w : World)
    (text pre post mid body rest : string) :
  model_reply (Prompt.system_prompt layers_info) user_message = Ok text ->
  Py.contains "EXPLANATION:" text = true ->
  text = pre +:+ "CODE:" +:+ post ->
  Py.find "CODE:" text = Some (Py.len pre) ->
  match Py.find "CODE:" post with Some j => Py.take j post | None => post end
    = mid +:+ "```" +:+ body +:+ "```" +:+ rest ->
  Py.contains "```python" (mid +:+ "```" +:+ body +:+ "```" +:+ rest) = false ->
  Py.find "```" (mid +:+ "```" +:+ body +:+ "```" +:+ rest) = Some (Py.len mid) ->
  Py.find "```" (body +:+ "```" +:+ rest) = Some (Py.len body) ->
  fst (generate_ezdxf_code user_message layers_info w)
  = Return (Py.strip (Py.replace "EXPLANATION:" EmptyString pre), Py.strip body).
Proof.
  intros Hm HE Ht HC Hpart Hnopy Hopen Hclose. rewrite generate_eq, Hm. cbn [fst].
  rewrite (parse_response_code_part text pre post HE Ht HC). cbv zeta.
  rewrite Hpart. by rewrite (extract_code_plain _ _ _ _ Hnopy Hopen Hclose).
Qed.

Lemma code_in_plain_fence_witness :
  let text := "EXPLANATION: Add a line." +:+ nl +:+ "CODE:" +:+ nl +:+ "```" +:+ nl
              +:+ "msp.add_line((0, 0), (1, 1))" +:+ nl +:+ "```" +:+ nl +:+ "Done." in
  fst (generate_ezdxf_code text [] Demo.fresh)
  = Return ("Add a line.", "msp.add_line((0, 0), (1, 1))").
Proof.
  intros text.
  exact (code_in_plain_fence (Ext := Demo.ext) text [] Demo.fresh text
           ("EXPLANATION: Add a line." +:+ nl)
           (nl +:+ "```" +:+ nl +:+ "msp.add_line((0, 0), (1, 1))" +:+ nl +:+ "```"
            +:+ nl +:+ "Done.")
           nl (nl +:+ "msp.add_line((0, 0), (1, 1))" +:+ nl) (nl +:+ "Done.")
           eq_refl eq_refl eq_refl eq_refl eq_refl eq_refl eq_refl eq_refl).
Defined.

(** X5: a python fence that is never closed (a reply cut off at the token
    limit) still gives code: without "EXPLANATION:" in the reply, everything
    behind the first python fence, stripped. *)
Theorem unclosed_fence_gives_the_rest `{Ext : External}
    (user_message : string) (layers_info : list LayerInfo) (w : World)
    (text pre body : string) :
  model_reply (Prompt.system_prompt layers_info) user_message = Ok text ->
  Py.contains "EXPLANATION:" text = false ->
  text = pre +:+ "```python" +:+ body ->
  Py.find "```python" text = Some (Py.len pre) ->
  Py.find "```" body = None ->
  fst (generate_ezdxf_code user_message layers_info w)
  = Return ("Executing requested changes.", Py.strip body).
Proof.
  intros Hm HE -> Hopen Hno. rewrite generate_eq, Hm. cbn [fst].
  unfold parse_response. rewrite HE. unfold extract_code.
  assert (Py.contains "```python" (pre +:+ "```python" +:+ body) = true) as ->
    by (apply contains_find; eauto).
  pose proof (find_app_l "```" "python" body Hno) as Hnopy.
  change ("```" +:+ "python") with "```python" in Hnopy.
  by rewrite (fenced_open "```python" pre body ltac:(done) Hopen Hnopy Hno).
Qed.

Lemma unclosed_fence_gives_the_rest_witness :
  let text := "Here you go:" +:+ nl +:+ "```python" +:+ nl
              +:+ "for e in msp.query('LINE'):" +:+ nl +:+ "    msp.delete_ent" in
  fst (generate_ezdxf_code text [] Demo.fresh)
  = Return ("Executing requested changes.",
            "for e in msp.query('LINE'):" +:+ nl +:+ "    msp.delete_ent").
Proof.
  intros text.
  exact (unclosed_fence_gives_the_rest (Ext := Demo.ext) text [] Demo.fresh text
           ("Here you go:" +:+ nl)
           (nl +:+ "for e in msp.query('LINE'):" +:+ nl +:+ "    msp.delete_ent")
           eq_refl eq_refl eq_refl eq_refl eq_refl).
Defined.

(** X6: when the model answers in prose - no "EXPLANATION:", no fence -
    POST /api/chat runs nothing: the answer has the response "Executing
    requested changes.", empty code, [executed] and [svg_updated] false, and
    the only effect is the call of the model. *)
Theorem prose_reply_runs_nothing `{Ext : External}
    (request : ChatRequest) (w : World) (o : DocObject) (layers : list LayerInfo)
    (text : string) :
  current_doc w = Some o ->
  layers_info_of (doc o) (layer_table (doc o)) = Ok layers ->
  model_reply (Prompt.system_prompt layers) (message request) = Ok text ->
  Py.contains "EXPLANATION:" text = false ->
  Py.contains "```" text = false ->
  chat request w
  = (Return (ChatResult {| response := "Executing requested changes.";
                           code := EmptyString;
                           executed := false;
                           result := EmptyString;
                           svg_updated := false |}),
     add_event (EvModel (Prompt.system_prompt layers) (message request)) w).
Proof.
  intros Ho Hl Hm HE Hno. rewrite (chat_eq _ _ _ Ho), Hl. cbv zeta. rewrite Hm.
  unfold parse_response. rewrite HE, (extract_code_none _ _ Hno). done.
Qed.

Lemma prose_reply_runs_nothing_witness :
  fst (chat {| message := "Sorry, which doors do you mean?" |} Demo.with_plan)
  = Return (ChatResult {| response := "Executing requested changes.";
                          code := EmptyString;
                          executed := false;
                          result := EmptyString;
                          svg_updated := false |})
  /\ current_doc (snd (chat {| message := "Sorry, which doors do you mean?" |} Demo.with_plan))
     = current_doc Demo.with_plan.
Proof.
  pose proof (prose_reply_runs_nothing (Ext := Demo.ext)
                {| message := "Sorry, which doors do you mean?" |} Demo.with_plan
                {| doc_id := O; doc := ["WALLS"; "WALLS"; "0"] : @Drawing Demo.ext |}
                [ {| name := "0"; color := 7; entity_count := 1 |};
                  {| name := "WALLS"; color := 7; entity_count := 2 |} ]
                "Sorry, which doors do you mean?"
                eq_refl eq_refl eq_refl eq_refl eq_refl) as H.
  rewrite H. split; reflexivity.
Defined.

(** X7: a RuntimeError raised before any code exists - by the layer query
    or by the model client - is answered like a failed execution: a
    ChatResponse with the response "Error executing code: " and the message,
    empty code, [executed] false; the document is untouched. *)
Theorem early_runtime_error_is_answered `{Ext : External}
    (request : ChatRequest) (w : World) (o : DocObject) (msg : string) :
  current_doc w = Some o ->
  layers_info_of (doc o) (layer_table (doc o)) = Failed (RuntimeError msg)
  \/ (exists layers,
        layers_info_of (doc o) (layer_table (doc o)) = Ok layers
        /\ model_reply (Prompt.system_prompt layers) (message request)
           = Failed (RuntimeError msg)) ->
  fst (chat request w)
  = Return (ChatResult {| response := "Error executing code: " +:+ msg;
                          code := EmptyString;
                          executed := false;
                          result := msg;
                          svg_updated := false |})
  /\ current_doc (snd (chat request w)) = Some o.
Proof.
  intros Ho [Hl | (layers & Hl & Hm)]; rewrite (chat_eq _ _ _ Ho), Hl.
  - done.
  - cbv zeta. by rewrite Hm.
Qed.

Lemma early_runtime_error_is_answered_witness :
  fst (chat {| message := Faulty.closed |} Faulty.with_sketch)
  = Return (ChatResult
      {| response := "Error executing code: Cannot send a request, as the client has been closed.";
         code := EmptyString;
         executed := false;
         result := "Cannot send a request, as the client has been closed.";
         svg_updated := false |}).
Proof.
  destruct (early_runtime_error_is_answered (Ext := Faulty.ext)
              {| message := Faulty.closed |} Faulty.with_sketch
              {| doc_id := O; doc := ["0"] : @Drawing Faulty.ext |}
              "Cannot send a request, as the client has been closed." eq_refl) as [H _].
  - right. exists [ {| name := "0"; color := 7; entity_count := 1 |};
                    {| name := "WALLS"; color := 7; entity_count := 0 |} ].
    split; reflexivity.
  - exact H.
Defined.

(** X8: any other exception of the layer query or of the model client
    makes POST /api/chat answer with status 500 and the detail "Chat
    processing failed: " followed by the message; the document is
    untouched. *)
Theorem early_error_is_a_server_error `{Ext : External}
    (request : ChatRequest) (w : World) (o : DocObject) (e : Error) :
  current_doc w = Some o ->
  (forall msg, e <> RuntimeError msg) ->
  layers_info_of (doc o) (layer_table (doc o)) = Failed e
  \/ (exists layers,
        layers_info_of (doc o) (layer_table (doc o)) = Ok layers
        /\ model_reply (Prompt.system_prompt layers) (message request) = Failed e) ->
  fst (chat request w)
  = Throw (Exc (HTTPException 500 ("Chat processing failed: " +:+ str_error e)))
  /\ http_status (fst (chat request w)) = Some 500%Z
  /\ current_doc (snd (chat request w)) = Some o.
Proof.
  intros Ho He H.
  assert (forall w0, chat_except None (Exc e) w0
            = (Throw (Exc (HTTPException 500 ("Chat processing failed: " +:+ str_error e))),
               w0)) as Hx.
  { intros w0. destruct e as [status detail | msg | cls msg]; try done.
    by destruct (He msg). }
  destruct H as [Hl | (layers & Hl & Hm)]; rewrite (chat_eq _ _ _ Ho), Hl.
  - by rewrite Hx.
  - cbv zeta. by rewrite Hm, Hx.
Qed.

Lemma early_error_is_a_server_error_witness :
  fst (chat {| message := Faulty.overloaded |} Faulty.with_sketch)
  = Throw (Exc (HTTPException 500 "Chat processing failed: Overloaded")).
Proof.
  destruct (early_error_is_a_server_error (Ext := Faulty.ext)
              {| message := Faulty.overloaded |} Faulty.with_sketch
              {| doc_id := O; doc := ["0"] : @Drawing Faulty.ext |}
              (OtherError "APIStatusError" "Overloaded") eq_refl) as (H & _).
  - intros msg. discriminate.
  - right. exists [ {| name := "0"; color := 7; entity_count := 1 |};
                    {| name := "WALLS"; color := 7; entity_count := 0 |} ].
    split; reflexivity.
  - exact H.
Defined.

(** X9: an execution that fails is not undone.  When the snippet raises
    an exception derived from [Exception] of which [str] can be taken,
    POST /api/chat answers with [executed] and [svg_updated] false, yet
    the world is the one the snippet left.  When the snippet has left the
    globals alone, [current_doc] holds the drawing as the snippet left it,
    and the next GET /api/svg renders that drawing. *)
Theorem failed_execution_is_kept `{Ext : External}
    (request : ChatRequest) (w : World) (o : DocObject) (layers : list LayerInfo)
    (text explanation source shown : string) (e : Raised) (traceback : string) :
  current_doc w = Some o ->
  layers_info_of (doc o) (layer_table (doc o)) = Ok layers ->
  model_reply (Prompt.system_prompt layers) (message request) = Ok text ->
  parse_response text = Ok (explanation, source) ->
  Py.truthy source = true ->
  outcome (py_exec source exec_globals o (reach w)) = Raising e traceback ->
  is_Exception e = true ->
  str_raised e = Return shown ->
  let left := {| doc_id := doc_id o;
                 doc := left_doc (py_exec source exec_globals o (reach w)) |} in
  (exists r, fst (chat request w) = Return (ChatResult r)
             /\ executed r = false /\ svg_updated r = false)
  /\ snd (chat request w)
     = after_exec source o
         (add_event (EvModel (Prompt.system_prompt layers) (message request)) w)
  /\ (keeps_globals source o w ->
      current_doc (snd (chat request w)) = Some left
      /\ fst (get_svg (snd (chat request w)))
         = match render svg_config auto_page (doc left) with
           | Ok svg => Return (Response svg "image/svg+xml")
           | Failed err => Throw (Exc err)
           end).
Proof.
  intros Ho Hl Hm Hp Ht Hx He Hs left.
  rewrite (chat_eq _ _ _ Ho), Hl. cbv zeta. rewrite Hm, Hp, Ht, Hx, He, Hs. cbn [fst snd].
  split; [eexists; split; [reflexivity | done]|]. split; [done|].
  intros Hk.
  destruct (after_exec_kept source o
              (add_event (EvModel (Prompt.system_prompt layers) (message request)) w)
              Ho Hk) as [Hd _].
  split; [done|]. by rewrite (get_svg_eq _ _ Hd).
Qed.

Lemma failed_execution_is_kept_witness :
  let request := {| message := Demo.reply "Add a line." Faulty.add_then_divide |} in
  option_map doc (current_doc Faulty.with_sketch) = Some ["0"]
  /\ option_map doc (current_doc (snd (chat request Faulty.with_sketch))) = Some ["0"; "0"]
  /\ fst (get_svg (snd (chat request Faulty.with_sketch)))
     = Return (Response "<svg>0,0</svg>" "image/svg+xml")
  /\ current_doc (snd (chat {| message := Demo.reply "Forget it." Faulty.forget_then_divide |}
                         Faulty.with_sketch)) = None.
Proof.
  intros request. split; [reflexivity|].
  destruct (failed_execution_is_kept (Ext := Faulty.ext) request Faulty.with_sketch
              {| doc_id := O; doc := ["0"] : @Drawing Faulty.ext |}
              [ {| name := "0"; color := 7; entity_count := 1 |};
                {| name := "WALLS"; color := 7; entity_count := 0 |} ]
              (Demo.reply "Add a line." Faulty.add_then_divide) "Add a line."
              Faulty.add_then_divide "division by zero"
              (Exc (OtherError "ZeroDivisionError" "division by zero"))
              "ZeroDivisionError: division by zero"
              eq_refl eq_refl eq_refl eq_refl eq_refl eq_refl eq_refl eq_refl)
    as (_ & _ & H).
  destruct H as [H2 H3]; [repeat split|].
  split; [by rewrite H2|]. split; [exact H3 | vm_compute; reflexivity].
Defined.

(** X10: an exception of the snippet that is not derived from
    [Exception] ([exit()], [sys.exit()], [raise SystemExit]) is wrapped by
    nobody: it leaves [execute_ezdxf_code] and POST /api/chat as it is, no
    answer is made, and the world stays as the snippet left it - with the
    drawing as the snippet left it in [current_doc], when the snippet has
    left the globals alone. *)
Theorem exit_leaves_the_handler `{Ext : External}
    (request : ChatRequest) (w : World) (o : DocObject) (layers : list LayerInfo)
    (text explanation source : string) (e : Raised) (traceback : string) :
  current_doc w = Some o ->
  layers_info_of (doc o) (layer_table (doc o)) = Ok layers ->
  model_reply (Prompt.system_prompt layers) (message request) = Ok text ->
  parse_response text = Ok (explanation, source) ->
  Py.truthy source = true ->
  outcome (py_exec source exec_globals o (reach w)) = Raising e traceback ->
  is_Exception e = false ->
  fst (execute_ezdxf_code source o w) = Throw e
  /\ fst (chat request w) = Throw e
  /\ http_status (fst (chat request w)) = None
  /\ snd (chat request w)
     = after_exec source o
         (add_event (EvModel (Prompt.system_prompt layers) (message request)) w)
  /\ (keeps_globals source o w ->
      current_doc (snd (chat request w))
      = Some {| doc_id := doc_id o;
                doc := left_doc (py_exec source exec_globals o (reach w)) |}).
Proof.
  intros Ho Hl Hm Hp Ht Hx He.
  rewrite execute_eq, Hx, He.
  rewrite (chat_eq _ _ _ Ho), Hl. cbv zeta. rewrite Hm, Hp, Ht, Hx, He. cbn [fst snd].
  split; [done|]. split; [done|]. split; [by destruct e|]. split; [done|].
  intros Hk.
  by destruct (after_exec_kept source o
                 (add_event (EvModel (Prompt.system_prompt layers) (message request)) w)
                 Ho Hk) as [Hd _].
Qed.

Lemma exit_leaves_the_handler_witness :
  let request := {| message := Demo.reply "Add a line." Faulty.add_then_leave |} in
  fst (chat request Faulty.with_sketch) = Throw (Exit "SystemExit" "None")
  /\ option_map doc (current_doc (snd (chat request Faulty.with_sketch))) = Some ["0"; "0"].
Proof.
  intros request.
  destruct (exit_leaves_the_handler (Ext := Faulty.ext) request Faulty.with_sketch
              {| doc_id := O; doc := ["0"] : @Drawing Faulty.ext |}
              [ {| name := "0"; color := 7; entity_count := 1 |};
                {| name := "WALLS"; color := 7; entity_count := 0 |} ]
              (Demo.reply "Add a line." Faulty.add_then_leave) "Add a line."
              Faulty.add_then_leave (Exit "SystemExit" "None") EmptyString
              eq_refl eq_refl eq_refl eq_refl eq_refl eq_refl eq_refl)
    as (_ & H2 & _ & _ & H4).
  split; [exact H2|]. rewrite H4; [reflexivity | repeat split].
Defined.

(** X11: with a document loaded, GET /api/layers lists the layers of the
    layer table one by one, in its order: each entry has the name and the
    colour of its layer and, as [entity_count], the number of entities the
    query for that layer name finds.  The world is untouched. *)
Theorem layers_follow_the_table `{Ext : External}
    (w : World) (o : DocObject) (layers : list LayerInfo) :
  current_doc w = Some o ->
  fst (get_layers_info o w) = Return layers ->
  get_layers w = (Return (LayersResult layers), w)
  /\ map name layers = map fst (layer_table (doc o))
  /\ map color layers = map snd (layer_table (doc o))
  /\ Forall2 (fun row l =>
                exists found,
                  query ("*[layer==" +:+ dq +:+ fst row +:+ dq +:+ "]") (doc o) = Ok found
                  /\ entity_count l = length found)
             (layer_table (doc o)) layers.
Proof.
  intros Ho. rewrite get_layers_info_eq, (get_layers_eq _ _ Ho). cbn [fst].
  destruct (layers_info_of (doc o) (layer_table (doc o))) as [ls|e] eqn:E; [|done].
  intros [= ->]. split; [done|].
  destruct (layers_info_of_columns _ _ _ E) as [H1 H2].
  split; [done|]. split; [done|].
  eapply Forall2_impl; [by apply layers_info_of_ok|].
  by intros row l (_ & _ & Hq).
Qed.

Lemma layers_follow_the_table_witness :
  get_layers Demo.with_plan
  = (Return (LayersResult [ {| name := "0"; color := 7; entity_count := 1 |};
                            {| name := "WALLS"; color := 7; entity_count := 2 |} ]),
     Demo.with_plan).
Proof.
  destruct (layers_follow_the_table (Ext := Demo.ext) Demo.with_plan
              {| doc_id := O; doc := ["WALLS"; "WALLS"; "0"] : @Drawing Demo.ext |}
              [ {| name := "0"; color := 7; entity_count := 1 |};
                {| name := "WALLS"; color := 7; entity_count := 2 |} ]
              eq_refl eq_refl) as [H _].
  exact H.
Defined.

(** X12: when the query of some layer fails, [get_layers_info] fails as
    a whole, with the error of the first layer of the table whose query
    fails; no partial list is returned, and GET /api/layers raises that
    error. *)
Theorem one_bad_layer_fails_the_listing `{Ext : External}
    (w : World) (o : DocObject) (before after : list (string * Z)) (row : string * Z)
    (e : Error) :
  layer_table (doc o) = (before ++ row :: after)%list ->
  Forall (fun r => exists found,
            query ("*[layer==" +:+ dq +:+ fst r +:+ dq +:+ "]") (doc o) = Ok found)
         before ->
  query ("*[layer==" +:+ dq +:+ fst row +:+ dq +:+ "]") (doc o) = Failed e ->
  get_layers_info o w = (Throw (Exc e), w)
  /\ (forall layers, fst (get_layers_info o w) <> Return layers)
  /\ (current_doc w = Some o -> get_layers w = (Throw (Exc e), w)).
Proof.
  intros Ht Hb Hq.
  pose proof (layers_info_of_first_failure (doc o) before after row e Hb Hq) as Hf.
  rewrite <- Ht in Hf. rewrite get_layers_info_eq, Hf. split; [done|]. split; [done|].
  intros Ho. by rewrite (get_layers_eq _ _ Ho), Hf.
Qed.

Lemma one_bad_layer_fails_the_listing_witness :
  let o := {| doc_id := O; doc := ["LOCKED"] : @Drawing Faulty.ext |} in
  @query Faulty.ext ("*[layer==" +:+ dq +:+ "0" +:+ dq +:+ "]") (doc o) = Ok []
  /\ fst (get_layers_info o Faulty.fresh) = Throw (Exc (RuntimeError "layer WALLS is locked")).
Proof.
  intros o. split; [reflexivity|].
  destruct (one_bad_layer_fails_the_listing (Ext := Faulty.ext) Faulty.fresh o
              [("0", 7%Z)] [] ("WALLS", 7%Z) (RuntimeError "layer WALLS is locked")
              eq_refl) as [H _].
  - constructor; [|constructor]. exists []. reflexivity.
  - reflexivity.
  - by rewrite H.
Defined.

(** X13: the system prompt sent to the model names every layer it was
    given: for each entry of [layers_info] it holds the line
    "- <name>: <entity_count> entities". *)
Theorem prompt_names_every_layer `{Ext : External}
    (user_message : string) (layers_info : list LayerInfo) (w : World) (l : LayerInfo) :
  In l layers_info ->
  log (snd (generate_ezdxf_code user_message layers_info w))
  = (log w ++ [EvModel (Prompt.system_prompt layers_info) user_message])%list
  /\ Py.contains
       ("- " +:+ name l +:+ ": " +:+ Py.str_int (Z.of_nat (entity_count l)) +:+ " entities")
       (Prompt.system_prompt layers_info) = true.
Proof.
  intros Hin. rewrite generate_eq. split; [done|].
  unfold Prompt.system_prompt, Prompt.layers_desc.
  destruct (join_elem nl (map Prompt.layer_line layers_info) (Prompt.layer_line l))
    as (a & b & ->); [by apply in_map|].
  rewrite <- (app_assoc_str Prompt.prompt_head), !app_assoc_str.
  rewrite <- (app_assoc_str Prompt.prompt_head).
  apply contains_app.
Qed.

Lemma prompt_names_every_layer_witness :
  Py.contains "- WALLS: 2 entities"
    (Prompt.system_prompt [ {| name := "0"; color := 7; entity_count := 1 |};
                            {| name := "WALLS"; color := 7; entity_count := 2 |} ]) = true.
Proof.
  destruct (prompt_names_every_layer (Ext := Demo.ext) "remove the doors"
              [ {| name := "0"; color := 7; entity_count := 1 |};
                {| name := "WALLS"; color := 7; entity_count := 2 |} ]
              Demo.fresh {| name := "WALLS"; color := 7; entity_count := 2 |}) as [_ H].
  - right. left. reflexivity.
  - exact H.
Defined.

(** X14: an upload whose file the system takes but ezdxf cannot load is
    answered with status 500 and the detail "Failed to process DXF: "
    followed by the message of the error; the document loaded before and
    its file name stay, and the bytes of the rejected file stay in the file
    at [Path(temp_dir) / filename]. *)
Theorem unreadable_upload_keeps_the_document `{Ext : External}
    (file : UploadFile) (w : World) (e : Error) :
  Py.endswith ".dxf" (Py.lower (filename file)) = true ->
  write_bytes (files w) (joinpath (temp_dir w) (filename file)) (content file) = Ok tt ->
  readfile (content file) = Failed e ->
  fst (upload_dxf file w)
  = Throw (Exc (HTTPException 500 ("Failed to process DXF: " +:+ str_error e)))
  /\ current_doc (snd (upload_dxf file w)) = current_doc w
  /\ current_filename (snd (upload_dxf file w)) = current_filename w
  /\ files (snd (upload_dxf file w)) !! joinpath (temp_dir w) (filename file)
     = Some (content file).
Proof.
  intros Hname Hw He. rewrite (upload_dxf_failed _ _ _ Hname Hw He).
  cbn [fst snd]. split; [done|]. split; [done|]. split; [done|].
  simpl. apply lookup_insert_eq.
Qed.

Lemma unreadable_upload_keeps_the_document_witness :
  fst (upload_dxf Faulty.garbage Faulty.with_sketch)
  = Throw (Exc (HTTPException 500 "Failed to process DXF: File is not a DXF file."))
  /\ current_filename (snd (upload_dxf Faulty.garbage Faulty.with_sketch)) = "sketch.dxf"
  /\ files (snd (upload_dxf Faulty.garbage Faulty.with_sketch)) !! "/tmp/t/garbage.dxf"
     = Some "not a drawing".
Proof.
  destruct (unreadable_upload_keeps_the_document (Ext := Faulty.ext)
              Faulty.garbage Faulty.with_sketch
              (OtherError "DXFStructureError" "File is not a DXF file.")
              eq_refl eq_refl eq_refl)
    as (H1 & _ & H3 & H4).
  split; [exact H1|]. split; [exact H3 | exact H4].
Defined.

(** X15: the globals are assigned before the drawing is rendered.  An
    upload that is stored and loads but cannot be rendered, or whose layers
    cannot be listed, is answered with status 500 - and has replaced the
    document and the file name all the same. *)
Theorem unrenderable_upload_replaces_the_document `{Ext : External}
    (file : UploadFile) (w : World) (d : Drawing) (e : Error) :
  Py.endswith ".dxf" (Py.lower (filename file)) = true ->
  write_bytes (files w) (joinpath (temp_dir w) (filename file)) (content file) = Ok tt ->
  readfile (content file) = Ok d ->
  render svg_config auto_page d = Failed e
  \/ (exists svg, render svg_config auto_page d = Ok svg)
     /\ layers_info_of d (layer_table d) = Failed e ->
  fst (upload_dxf file w)
  = Throw (Exc (HTTPException 500 ("Failed to process DXF: " +:+ str_error e)))
  /\ current_doc (snd (upload_dxf file w)) = Some {| doc_id := next_id w; doc := d |}
  /\ current_filename (snd (upload_dxf file w)) = filename file.
Proof.
  intros Hname Hw Hd H. rewrite (upload_dxf_loaded _ _ _ Hname Hw Hd).
  cbn [fst snd]. split; [|done].
  destruct H as [-> | [[svg ->] ->]]; done.
Qed.

Lemma unrenderable_upload_replaces_the_document_witness :
  fst (upload_dxf Faulty.broken Faulty.with_sketch)
  = Throw (Exc (HTTPException 500 "Failed to process DXF: cannot draw entity"))
  /\ current_filename Faulty.with_sketch = "sketch.dxf"
  /\ current_filename (snd (upload_dxf Faulty.broken Faulty.with_sketch)) = "broken.dxf"
  /\ option_map doc (current_doc (snd (upload_dxf Faulty.broken Faulty.with_sketch)))
     = Some ["WALLS"; "BROKEN"].
Proof.
  destruct (unrenderable_upload_replaces_the_document (Ext := Faulty.ext)
              Faulty.broken Faulty.with_sketch ["WALLS"; "BROKEN"]
              (OtherError "DXFRenderError" "cannot draw entity") eq_refl eq_refl eq_refl)
    as (H1 & H2 & H3).
  - left. reflexivity.
  - split; [exact H1|]. split; [reflexivity|]. split; [exact H3 | by rewrite H2].
Defined.

(** X16: what an upload answers is what the server then serves: right
    after a successful upload, GET /api/svg returns the SVG of the upload's
    answer and GET /api/layers its layers. *)
Theorem upload_agrees_with_svg_and_layers `{Ext : External}
    (file : UploadFile) (w : World) (svg : string) (layers : list LayerInfo) :
  fst (upload_dxf file w) = Return (UploadResult true (filename file) svg layers) ->
  fst (get_svg (snd (upload_dxf file w))) = Return (Response svg "image/svg+xml")
  /\ fst (get_layers (snd (upload_dxf file w))) = Return (LayersResult layers).
Proof.
  intros H. destruct (upload_dxf_succeeded _ _ _ H) as (Hname & Hw & d & Hd).
  revert H. rewrite (upload_dxf_loaded _ _ _ Hname Hw Hd). cbn [fst snd].
  set (w1 := installed file (content file) d _).
  assert (current_doc w1 = Some {| doc_id := next_id w; doc := d |}) as Hc by done.
  rewrite (get_svg_eq _ _ Hc), (get_layers_eq _ _ Hc). cbn [fst doc].
  destruct (render svg_config auto_page d) as [s|e]; [|done].
  destruct (layers_info_of d (layer_table d)) as [ls|e]; [|done].
  by intros [= -> ->].
Qed.

Lemma upload_agrees_with_svg_and_layers_witness :
  fst (get_svg (snd (upload_dxf Demo.plan Demo.fresh)))
  = Return (Response "<svg>WALLS,WALLS,0</svg>" "image/svg+xml")
  /\ fst (get_layers (snd (upload_dxf Demo.plan Demo.fresh)))
     = Return (LayersResult [ {| name := "0"; color := 7; entity_count := 1 |};
                              {| name := "WALLS"; color := 7; entity_count := 2 |} ]).
Proof.
  exact (upload_agrees_with_svg_and_layers (Ext := Demo.ext) Demo.plan Demo.fresh
           "<svg>WALLS,WALLS,0</svg>"
           [ {| name := "0"; color := 7; entity_count := 1 |};
             {| name := "WALLS"; color := 7; entity_count := 2 |} ]
           eq_refl).
Defined.

(** X17: GET /api/export/dxf for a document whose file name is a stem
    followed by the one ".dxf" in it: the bytes of [saveas] are written to
    the path [Path(temp_dir) / "<stem>_edited.dxf"] and that file is
    answered, under that name, with media type application/dxf; no other
    file is written, the document and the file name are as before. *)
Theorem export_dxf_writes_the_edited_file `{Ext : External}
    (w : World) (o : DocObject) (stem data : string) :
  current_doc w = Some o ->
  current_filename w = stem +:+ ".dxf" ->
  Py.find ".dxf" (stem +:+ ".dxf") = Some (Py.len stem) ->
  saveas (doc o) = Ok data ->
  let export_path := joinpath (temp_dir w) (stem +:+ "_edited.dxf") in
  fst (export_dxf w)
  = Return (FileResponse export_path (stem +:+ "_edited.dxf") "application/dxf")
  /\ files (snd (export_dxf w)) = <[export_path := data]> (files w)
  /\ current_doc (snd (export_dxf w)) = Some o
  /\ current_filename (snd (export_dxf w)) = stem +:+ ".dxf".
Proof.
  intros Ho Hn Hf Hs export_path. rewrite (export_dxf_eq _ _ Ho), Hs, Hn. cbv zeta.
  rewrite (replace_suffix ".dxf" "_edited.dxf" stem ltac:(done) Hf). by rewrite <- Hn.
Qed.

Lemma export_dxf_writes_the_edited_file_witness :
  fst (export_dxf Demo.edited)
  = Return (FileResponse "/tmp/t/sketch_edited.dxf" "sketch_edited.dxf" "application/dxf")
  /\ files (snd (export_dxf Demo.edited))
     = <["/tmp/t/sketch_edited.dxf" := "DXF:0,0"]> (files Demo.edited).
Proof.
  destruct (export_dxf_writes_the_edited_file (Ext := Demo.ext) Demo.edited
              {| doc_id := O; doc := ["0"; "0"] : @Drawing Demo.ext |} "sketch" "DXF:0,0"
              eq_refl eq_refl eq_refl eq_refl) as (H1 & H2 & _).
  split; [exact H1 | exact H2].
Defined.

(** X18: the gate of the upload ignores the case of the extension, the
    export does not.  When ".dxf" does not occur in the file name (as in
    "Plan.DXF"), GET /api/export/dxf writes the document over the uploaded
    file and answers it under the name of the upload, without
    "_edited". *)
Theorem export_dxf_overwrites_the_upload `{Ext : External}
    (w : World) (o : DocObject) (data : string) :
  current_doc w = Some o ->
  Py.find ".dxf" (current_filename w) = None ->
  saveas (doc o) = Ok data ->
  let upload_path := joinpath (temp_dir w) (current_filename w) in
  fst (export_dxf w)
  = Return (FileResponse upload_path (current_filename w) "application/dxf")
  /\ files (snd (export_dxf w)) !! upload_path = Some data.
Proof.
  intros Ho Hf Hs upload_path. rewrite (export_dxf_eq _ _ Ho), Hs. cbv zeta.
  rewrite (replace_none _ _ _ Hf). cbn [fst snd]. split; [done|].
  simpl. apply lookup_insert_eq.
Qed.

Lemma export_dxf_overwrites_the_upload_witness :
  let w := step (Serve (PostChat {| message := Demo.reply "Add a line." Demo.add_line |}))
             Demo.with_plan in
  files w !! "/tmp/t/Plan.DXF" = Some "DXF:WALLS,WALLS,0"
  /\ fst (export_dxf w) = Return (FileResponse "/tmp/t/Plan.DXF" "Plan.DXF" "application/dxf")
  /\ files (snd (export_dxf w)) !! "/tmp/t/Plan.DXF" = Some "DXF:WALLS,WALLS,0,0".
Proof.
  intros w. split; [vm_compute; reflexivity|].
  assert (current_doc w
          = Some {| doc_id := O; doc := ["WALLS"; "WALLS"; "0"; "0"] : @Drawing Demo.ext |})
    as Ho by (vm_compute; reflexivity).
  assert (Py.find ".dxf" (current_filename w) = None) as Hf by (vm_compute; reflexivity).
  exact (export_dxf_overwrites_the_upload (Ext := Demo.ext) w _ "DXF:WALLS,WALLS,0,0"
           Ho Hf eq_refl).
Defined.

(** X19: GET /api/export/pdf renders the document with its own
    configuration (white background, the drawing's colours, line weights
    doubled), leaves that SVG in "temp.svg" in the temporary directory,
    writes the PDF made from it under the file name with ".dxf" replaced by
    ".pdf" and answers that file with media type application/pdf; the
    document and the file name are as before. *)
Theorem export_pdf_writes_svg_and_pdf `{Ext : External}
    (w : World) (o : DocObject) (svg data : string) (drawing : RLDrawing) :
  current_doc w = Some o ->
  render pdf_config auto_page (doc o) = Ok svg ->
  svg2rlg svg = Ok (Some drawing) ->
  drawToFile drawing = Ok data ->
  let export_name := Py.replace ".dxf" ".pdf" (current_filename w) in
  let export_path := joinpath (temp_dir w) export_name in
  fst (export_pdf w) = Return (FileResponse export_path export_name "application/pdf")
  /\ files (snd (export_pdf w))
     = <[export_path := data]> (<[joinpath (temp_dir w) "temp.svg" := svg]> (files w))
  /\ current_doc (snd (export_pdf w)) = Some o
  /\ current_filename (snd (export_pdf w)) = current_filename w.
Proof.
  intros Ho Hr Hs Hd export_name export_path.
  rewrite (export_pdf_eq _ _ Ho). cbv zeta. by rewrite Hr, Hs, Hd.
Qed.

Lemma export_pdf_writes_svg_and_pdf_witness :
  fst (export_pdf Faulty.with_sketch)
  = Return (FileResponse "/tmp/t/sketch.pdf" "sketch.pdf" "application/pdf")
  /\ files (snd (export_pdf Faulty.with_sketch)) !! "/tmp/t/temp.svg" = Some "<svg>0</svg>"
  /\ files (snd (export_pdf Faulty.with_sketch)) !! "/tmp/t/sketch.pdf"
     = Some "%PDF <svg>0</svg>".
Proof.
  destruct (export_pdf_writes_svg_and_pdf (Ext := Faulty.ext) Faulty.with_sketch
              {| doc_id := O; doc := ["0"] : @Drawing Faulty.ext |}
              "<svg>0</svg>" "%PDF <svg>0</svg>" "<svg>0</svg>"
              eq_refl eq_refl eq_refl eq_refl) as (H1 & H2 & _).
  split; [exact H1|]. rewrite H2. split; vm_compute; reflexivity.
Defined.

(** X20: when svglib cannot make a drawing of the SVG ([svg2rlg] returns
    [None]), GET /api/export/pdf answers with status 500 and the detail
    "Failed to parse SVG for PDF export"; "temp.svg" has been written by
    then and stays, no PDF is written. *)
Theorem export_pdf_without_drawing `{Ext : External}
    (w : World) (o : DocObject) (svg : string) :
  current_doc w = Some o ->
  render pdf_config auto_page (doc o) = Ok svg ->
  svg2rlg svg = Ok None ->
  fst (export_pdf w) = Throw (Exc (HTTPException 500 "Failed to parse SVG for PDF export"))
  /\ http_status (fst (export_pdf w)) = Some 500%Z
  /\ files (snd (export_pdf w)) = <[joinpath (temp_dir w) "temp.svg" := svg]> (files w).
Proof.
  intros Ho Hr Hs. rewrite (export_pdf_eq _ _ Ho). cbv zeta. by rewrite Hr, Hs.
Qed.

Lemma export_pdf_without_drawing_witness :
  let w := step (Serve (PostUpload Faulty.hatched)) Faulty.fresh in
  fst (export_pdf w) = Throw (Exc (HTTPException 500 "Failed to parse SVG for PDF export"))
  /\ files (snd (export_pdf w)) !! "/tmp/t/temp.svg" = Some "<svg>HATCH</svg>"
  /\ files (snd (export_pdf w)) !! "/tmp/t/hatched.pdf" = None.
Proof.
  intros w.
  destruct (export_pdf_without_drawing (Ext := Faulty.ext) w
              {| doc_id := O; doc := ["HATCH"] : @Drawing Faulty.ext |} "<svg>HATCH</svg>"
              eq_refl eq_refl eq_refl) as (H1 & _ & H3).
  split; [exact H1|]. rewrite H3. split; vm_compute; reflexivity.
Defined.

(** X21: no handler removes a file; only executed code can.  A file
    that exists stays (overwritten, maybe) through every sequence of
    requests, uploads split at their [await] included, in which the code
    that POST /api/chat executes leaves it in its place. *)
Theorem only_executed_code_removes_files `{Ext : External}
    (steps : list Step) (w : World) (path : string) :
  all_along (keeps_file path) steps w ->
  is_Some (files w !! path) ->
  is_Some (files (run steps w) !! path).
Proof. apply run_keeps_files. Qed.

Lemma only_executed_code_removes_files_witness :
  let steps := [Serve (PostUpload Demo.sketch);
                Serve (PostChat {| message := Demo.reply "Add a line." Demo.add_line |});
                Serve GetExportDxf; Serve GetExportPdf; UploadBegin Demo.notes] in
  is_Some (files Demo.with_plan !! "/tmp/t/Plan.DXF")
  /\ all_along (keeps_file "/tmp/t/Plan.DXF") steps Demo.with_plan
  /\ is_Some (files (run steps Demo.with_plan) !! "/tmp/t/Plan.DXF")
  /\ files (snd (chat {| message := Demo.reply "Remove it." Demo.unlink |}
                   (step (Serve (PostUpload Demo.sketch)) Demo.with_plan)))
     !! "/tmp/t/sketch.dxf" = None.
Proof.
  intros steps.
  assert (is_Some (files Demo.with_plan !! "/tmp/t/Plan.DXF")) as H
    by (exists "DXF:WALLS,WALLS,0"; vm_compute; reflexivity).
  assert (all_along (keeps_file "/tmp/t/Plan.DXF") steps Demo.with_plan) as Hk.
  { split; [exact I|]. split; [|repeat split].
    vm_compute. intros _. by eexists. }
  split; [exact H|]. split; [exact Hk|].
  split; [|vm_compute; reflexivity].
  exact (only_executed_code_removes_files (Ext := Demo.ext) steps Demo.with_plan
           "/tmp/t/Plan.DXF" Hk H).
Defined.

(** X22: what POST /api/chat does to the outside: it calls the model at
    most once and then [exec] at most once - with the globals [doc] and
    [ezdxf], on the document in [current_doc].  The handler itself renders
    nothing and writes no file: when no code is executed, the files and
    the document are untouched; when code is executed, the files are the
    ones this code left. *)
Theorem chat_calls_model_then_exec `{Ext : External} (request : ChatRequest) (w : World) :
  exists tail,
    log (snd (chat request w)) = (log w ++ tail)%list
    /\ (((tail = [] \/ exists prompt, tail = [EvModel prompt (message request)])
         /\ files (snd (chat request w)) = files w
         /\ current_doc (snd (chat request w)) = current_doc w)
        \/ (exists prompt source o,
              current_doc w = Some o
              /\ generated request o = Some source
              /\ tail = [EvModel prompt (message request);
                         EvExec source ["doc"; "ezdxf"] (doc_id o)]
              /\ files (snd (chat request w))
                 = r_files (left_reach (py_exec source exec_globals o (reach w))))).
Proof.
  destruct (current_doc w) as [o|] eqn:Ho.
  - rewrite (chat_world _ _ _ Ho).
    destruct (layers_info_of _ _) as [layers|e].
    2:{ exists []. split; [by rewrite app_nil_r|]. left. split; [by left | done]. }
    cbv zeta. set (prompt := Prompt.system_prompt layers).
    destruct (generated request o) as [source|] eqn:Hg.
    + eexists. split; [rewrite after_exec_log; simpl; by rewrite <- app_assoc|].
      right. exists prompt, source, o. done.
    + eexists. split; [reflexivity|]. left. split; [right; eauto | done].
  - rewrite (chat_unloaded _ _ Ho). exists []. split; [by rewrite app_nil_r|].
    left. split; [by left | done].
Qed.
